(** * OWASP BLT Lettuce: the project finder bot (src/python/entry.py)

    A shallow embedding of the conversation flowchart, the conversation
    state store, the catalog cache, the front-matter parser, the project
    matcher, the request verification and the catalog fetcher of
    [entry.py], followed by the properties the specification states about
    them and by further properties read off the code.

    The first part holds the model, the second part the proofs of the
    specification's statements, the third part the further properties. *)

From Stdlib Require Import ZArith NArith List Ascii String Bool Lia.
From stdpp Require Import gmap strings list fin_maps pretty.

Local Open Scope Z_scope.

(** * Part I: the model *)

(** ** Python values and exceptions *)

(** The exceptions the modelled code can meet. *)
Inductive exn : Type :=
  | ValueError
  | TypeError
  | AttributeError
  | JSONDecodeError.

(** The outcome of evaluating a Python expression: a value or a raised
    exception. *)
Inductive result (A : Type) : Type :=
  | Ok (a : A)
  | Raise (e : exn).
Arguments Ok {A} a.
Arguments Raise {A} e.

Global Instance exn_eq_dec : EqDecision exn.
Proof. solve_decision. Defined.

Definition rbind {A B} (r : result A) (k : A -> result B) : result B :=
  match r with
  | Ok a => k a
  | Raise e => Raise e
  end.

(** [try: r except e: h] *)
Definition try_except {A} (r : result A) (e : exn) (h : result A) : result A :=
  match r with
  | Ok a => Ok a
  | Raise e' => if decide (e' = e) then h else Raise e'
  end.

(** A [for] loop whose body may raise. *)
Fixpoint for_each {A S} (body : S -> A -> result S) (xs : list A) (s : S) : result S :=
  match xs with
  | [] => Ok s
  | x :: xs' => rbind (body s x) (for_each body xs')
  end.

(** ** Python [str]

    A [str] is a [string] whose characters are the code points below 256;
    [isspace], [lower] and [int] are Python's on that range. The display
    texts of the flowchart, which are never inspected, are carried as their
    UTF-8 bytes. *)
Module PyStr.

Definition ord (c : ascii) : N := N_of_ascii c.

(** [str.isspace] on one character: TAB..CR, FS..US, space, NEL, NBSP. *)
Definition isspace (c : ascii) : bool :=
  let n := ord c in
  ((9 <=? n) && (n <=? 13) || (28 <=? n) && (n <=? 32) || (n =? 133) || (n =? 160))%N.

(** [str.lower] on one character: A..Z and the capital letters of the
    Latin-1 supplement (all of 192..222 but the multiplication sign). *)
Definition lower_char (c : ascii) : ascii :=
  let n := ord c in
  if ((65 <=? n) && (n <=? 90) || (192 <=? n) && (n <=? 222) && negb (n =? 215))%N
  then ascii_of_N (n + 32) else c.

Fixpoint lower (s : string) : string :=
  match s with
  | EmptyString => EmptyString
  | String c s' => String (lower_char c) (lower s')
  end.

(** [s.startswith(p)] *)
Fixpoint startswith (s p : string) {struct p} : bool :=
  match p, s with
  | EmptyString, _ => true
  | String a p', String b s' => if decide (a = b) then startswith s' p' else false
  | String _ _, EmptyString => false
  end.

Fixpoint drop (n : nat) (s : string) : string :=
  match n, s with
  | O, _ => s
  | S n', String _ s' => drop n' s'
  | S _, EmptyString => EmptyString
  end.

Fixpoint take (n : nat) (s : string) : string :=
  match n, s with
  | S n', String c s' => String c (take n' s')
  | _, _ => EmptyString
  end.

(** [s[i:j]] for [0 <= i] and [0 <= j]. *)
Definition slice (i j : Z) (s : string) : string :=
  take (Z.to_nat (j - i)) (drop (Z.to_nat i) s).

(** The first index at or after [i] (the index of the head of [s]) where
    [sub] occurs. *)
Fixpoint find_aux (sub s : string) (i : nat) : option nat :=
  if startswith s sub then Some i
  else match s with
       | EmptyString => None
       | String _ s' => find_aux sub s' (S i)
       end.

(** [s.find(sub, start)] for [0 <= start]: the lowest index, [-1] when
    there is none. *)
Definition find (s sub : string) (start : nat) : Z :=
  if (String.length s <? start)%nat then -1
  else match find_aux sub (drop start s) start with
       | Some i => Z.of_nat i
       | None => -1
       end.

(** [sub in s] *)
Fixpoint contains (sub s : string) : bool :=
  startswith s sub ||
  match s with
  | EmptyString => false
  | String _ s' => contains sub s'
  end.

Fixpoint lstrip (s : string) : string :=
  match s with
  | EmptyString => EmptyString
  | String c s' => if isspace c then lstrip s' else s
  end.

Fixpoint rstrip (s : string) : string :=
  match s with
  | EmptyString => EmptyString
  | String c s' =>
      match rstrip s' with
      | EmptyString => if isspace c then EmptyString else String c EmptyString
      | r => String c r
      end
  end.

(** [s.strip()] *)
Definition strip (s : string) : string := rstrip (lstrip s).

(** [s.split(sep, maxsplit)] for a separator of one character;
    [maxsplit = None] stands for the default (no limit). *)
Fixpoint split (sep : ascii) (maxsplit : option nat) (s : string) : list string :=
  match s with
  | EmptyString => [EmptyString]
  | String c s' =>
      if decide (c = sep) then
        match maxsplit with
        | Some O => [s]
        | _ => EmptyString :: split sep (Nat.pred <$> maxsplit) s'
        end
      else
        match split sep maxsplit s' with
        | h :: t => String c h :: t
        | [] => [String c EmptyString]
        end
  end.

(** [sep.join(xs)] *)
Fixpoint join (sep : string) (xs : list string) : string :=
  match xs with
  | [] => EmptyString
  | [x] => x
  | x :: xs' => x +:+ sep +:+ join sep xs'
  end.

Definition digit (c : ascii) : option Z :=
  let n := ord c in
  if ((48 <=? n) && (n <=? 57))%N then Some (Z.of_N n - 48) else None.

(** The digits of a decimal literal, single underscores allowed between
    digits; [expect] says that a digit must come next. Returns the value
    and the number of digits. *)
Fixpoint digits (s : string) (expect : bool) (acc : Z) (n : nat) : option (Z * nat) :=
  match s with
  | EmptyString => if expect then None else Some (acc, n)
  | String c s' =>
      match digit c with
      | Some d => digits s' false (10 * acc + d) (S n)
      | None =>
          if decide (c = "_"%char) then
            if expect then None else digits s' true acc n
          else None
      end
  end.

(** [sys.get_int_max_str_digits()], CPython's default. *)
Definition int_max_str_digits : nat := 4300.

(** [int(s)]: surrounding white space, an optional sign, decimal digits;
    anything else, or more digits than the interpreter's limit, raises
    [ValueError]. *)
Definition int (s : string) : result Z :=
  let s := strip s in
  let '(sign, body) :=
    match s with
    | String "-" s' => (-1, s')
    | String "+" s' => (1, s')
    | _ => (1, s)
    end in
  match digits body true 0 0 with
  | Some (v, n) =>
      if (int_max_str_digits <? n)%nat then Raise ValueError else Ok (sign * v)
  | None => Raise ValueError
  end.

End PyStr.

Definition newline : ascii := "010"%char.

Definition nl : string := String newline "".

Definition dquote : ascii := "034"%char.

(** [d.get(k, dflt)] on a dict literal. *)
Fixpoint dict_get {V} (d : list (string * V)) (k : string) : option V :=
  match d with
  | [] => None
  | (k', v) :: d' => if decide (k' = k) then Some v else dict_get d' k
  end.

(** ** Front matter of a project's index.md *)

(** The values [parse_index_md] puts in its dict. *)
Inductive pyvalue : Type :=
  | VStr (s : string)
  | VInt (z : Z)
  | VList (l : list string).

Global Instance pyvalue_eq_dec : EqDecision pyvalue.
Proof. solve_decision. Defined.

(** Python truth value. *)
Definition truthy (v : pyvalue) : bool :=
  match v with
  | VStr s => negb (String.eqb s "")
  | VInt z => negb (z =? 0)
  | VList l => match l with [] => false | _ => true end
  end.

(** The body of the loop over the lines of the front matter. *)
Definition parse_line (metadata : gmap string pyvalue) (line : string)
  : result (gmap string pyvalue) :=
  let line := PyStr.strip line in
  if PyStr.contains ":" line then
    match PyStr.split ":" (Some 1%nat) line with
    | [key; value] =>
        let key := PyStr.strip key in
        let value := PyStr.strip value in
        if decide (key = "tags") then
          if truthy (VStr value)
          then Ok (<[key := VList (PyStr.strip <$> PyStr.split "," None value)]> metadata)
          else Ok (<[key := VList []]> metadata)
        else if decide (key = "level") then
          try_except
            (rbind (PyStr.int value) (fun z => Ok (<[key := VInt z]> metadata)))
            ValueError
            (Ok (<[key := VInt 0]> metadata))
        else Ok (<[key := VStr value]> metadata)
    | _ => Raise ValueError
    end
  else Ok metadata.

(** [content[3:end_index].strip()] when the document has its two
    delimiters. *)
Definition frontmatter (content : string) : option string :=
  if negb (PyStr.startswith content "---") then None
  else
    let end_index := PyStr.find content "---" 3 in
    if end_index =? -1 then None
    else Some (PyStr.strip (PyStr.slice 3 end_index content)).

Definition parse_index_md (content : string) : result (option (gmap string pyvalue)) :=
  match frontmatter content with
  | None => Ok None
  | Some fm =>
      rbind (for_each parse_line (PyStr.split newline None fm) ∅) (fun metadata =>
      match metadata !! "title" with
      | Some v => if truthy v then Ok (Some metadata) else Ok None
      | None => Ok None
      end)
  end.

(** ** Project matcher *)

(** A project of the catalog: the keys of the dict that the matcher and the
    reply read, each with the type [parse_index_md] and
    [fetch_owasp_projects] give it; [None] is an absent key. *)
Record project : Type := Project {
  title : option string;
  pitch : option string;
  tags : option (list string);
  type : option string;
  level : option Z;
  url : option string
}.

Global Instance project_eq_dec : EqDecision project.
Proof. solve_decision. Defined.

Definition category_mappings : list (string * list string) :=
  [ ("code_analysis", ["sast"; "code"; "analysis"; "dependency"; "scanner"]);
    ("web_testing", ["web"; "dast"; "testing"; "proxy"; "scanner"; "zap"]);
    ("auth", ["authentication"; "authorization"; "identity"; "sso"; "oauth"]);
    ("monitoring", ["monitor"; "logging"; "detection"; "siem"]);
    ("standards", ["standard"; "checklist"; "asvs"; "masvs"; "samm"]);
    ("secure_dev", ["development"; "secure coding"; "security guide"]);
    ("testing_guide", ["testing guide"; "pentest"; "wstg"]);
    ("cheatsheet", ["cheat"; "reference"; "quick"]);
    ("labs", ["lab"; "ctf"; "challenge"; "vulnerable"; "juice shop"; "webgoat"]);
    ("presentations", ["presentation"; "slide"; "talk"]);
    ("courses", ["course"; "curriculum"; "training"]);
    ("vuln_web", ["vulnerable"; "insecure"; "web application"; "juice shop"; "webgoat"]);
    ("vuln_mobile", ["mobile"; "android"; "ios"; "mstg"]);
    ("vuln_api", ["api"; "rest"; "graphql"]) ].

(** The text searched for keywords. *)
Definition searchable (p : project) : string :=
  PyStr.lower
    (default "" (title p) +:+ " " +:+ default "" (pitch p) +:+ " " +:+
     PyStr.join " " (default [] (tags p)) +:+ " " +:+ default "" (type p)).

Definition project_type (p : project) : string :=
  PyStr.lower (default "" (type p)).

(** [for kw in keywords: if kw in searchable: matching.append(project); break] *)
Fixpoint append_on_keyword (keywords : list string) (p : project)
    (matching : list project) : list project :=
  match keywords with
  | [] => matching
  | kw :: keywords' =>
      if PyStr.contains kw (searchable p) then matching ++ [p]
      else append_on_keyword keywords' p matching
  end.

(** The body of the loop over the projects. *)
Definition filter_step (category : string) (keywords : list string)
    (matching : list project) (p : project) : list project :=
  if decide (category ∈ ["code_analysis"; "web_testing"; "auth"; "monitoring"]) then
    if decide (project_type p = "tool")
    then append_on_keyword keywords p matching else matching
  else if decide (category ∈ ["standards"; "secure_dev"; "testing_guide"; "cheatsheet"]) then
    if decide (project_type p ∈ ["documentation"; "standard"])
    then append_on_keyword keywords p matching else matching
  else if decide (category ∈ ["labs"; "presentations"; "courses"]) then
    append_on_keyword keywords p matching
  else if decide (category ∈ ["vuln_web"; "vuln_mobile"; "vuln_api"]) then
    if decide (project_type p ∈ ["tool"; "code"])
    then append_on_keyword keywords p matching else matching
  else matching.

Definition filter_projects (projects : list project) (category : string) : list project :=
  let keywords := default [] (dict_get category_mappings category) in
  match keywords with
  | [] => projects
  | _ => fold_left (filter_step category keywords) projects []
  end.

(** The copy of [filter_projects] in tests/test_bot.py, which differs in
    what it answers when there are no keywords. *)
Definition test_bot_filter_projects (projects : list project) (category : string)
  : list project :=
  let keywords := default [] (dict_get category_mappings category) in
  match keywords with
  | [] => []
  | _ => fold_left (filter_step category keywords) projects []
  end.

(** ** JSON documents

    The documents [json.loads] yields from a button value; the numbers in
    them are integers. *)
#[local] Set Warnings "-register-all".
Inductive json : Type :=
  | JNull
  | JBool (b : bool)
  | JInt (z : Z)
  | JStr (s : string)
  | JArr (items : list json)
  | JObj (fields : list (string * json)).

Definition hex_digit (n : N) : ascii :=
  ascii_of_N (if (n <? 10)%N then 48 + n else 87 + n).

(** One character inside a JSON string literal, [ensure_ascii] on. *)
Definition json_escape_char (c : ascii) : string :=
  let n := PyStr.ord c in
  if decide (c = dquote) then String "\" (String dquote "")
  else if decide (c = "\"%char) then "\\"
  else if (n =? 10)%N then "\n"
  else if (n =? 13)%N then "\r"
  else if (n =? 9)%N then "\t"
  else if (n =? 8)%N then "\b"
  else if (n =? 12)%N then "\f"
  else if ((32 <=? n) && (n <=? 126))%N then String c ""
  else "\u00" +:+ String (hex_digit (n / 16)) (String (hex_digit (n mod 16)) "").

Fixpoint json_escape (s : string) : string :=
  match s with
  | EmptyString => EmptyString
  | String c s' => json_escape_char c +:+ json_escape s'
  end.

Definition json_quote (s : string) : string :=
  String dquote (json_escape s) +:+ String dquote "".

(** [json.dumps] with its default separators. *)
Fixpoint json_dumps (j : json) : string :=
  match j with
  | JNull => "null"
  | JBool true => "true"
  | JBool false => "false"
  | JInt z => pretty z
  | JStr s => json_quote s
  | JArr items => "[" +:+ PyStr.join ", " (map json_dumps items) +:+ "]"
  | JObj fields =>
      "{" +:+
      PyStr.join ", "
        (map (fun kv => json_quote (fst kv) +:+ ": " +:+ json_dumps (snd kv)) fields)
      +:+ "}"
  end.

(** [d.get(k)] on a decoded document: only an object has the method. *)
Definition json_get (data : json) (k : string) : result json :=
  match data with
  | JObj fields => Ok (default JNull (dict_get fields k))
  | _ => Raise AttributeError
  end.

(** Looking up a decoded value in a dict whose keys are all strings: a
    string may be found, a list or an object cannot be hashed, and nothing
    else equals a string. *)
Definition lookup_json {V} (d : string -> option V) (k : json) : result (option V) :=
  match k with
  | JStr s => Ok (d s)
  | JArr _ | JObj _ => Raise TypeError
  | _ => Ok None
  end.

(** The key under which [json.dumps] writes a dict key. *)
Definition dumped_key (k : json) : result string :=
  match k with
  | JStr s => Ok s
  | JNull => Ok "null"
  | JBool true => Ok "true"
  | JBool false => Ok "false"
  | JInt z => Ok (pretty z)
  | JArr _ | JObj _ => Raise TypeError
  end.

(** ** The flowchart *)

Record flow_option : Type := FlowOption {
  o_text : string;
  o_value : string;
  o_next : string
}.

Record flow_question : Type := FlowQuestion {
  q_question : string;
  q_options : list flow_option
}.

Definition FLOWCHART_QUESTIONS : list (string * flow_question) :=
  [ ("start", FlowQuestion "What type of OWASP resource are you looking for?"
      [ FlowOption "🛠️ Security Tool" "tool" "tool_type";
        FlowOption "📚 Documentation/Guide" "documentation" "doc_type";
        FlowOption "🎓 Training/Education" "training" "training_type";
        FlowOption "🔬 Vulnerable Application (for testing)" "vulnerable_app" "vuln_app_type" ]);
    ("tool_type", FlowQuestion "What kind of security tool are you looking for?"
      [ FlowOption "🔍 Code Analysis/SAST" "code_analysis" "end";
        FlowOption "🌐 Web Application Testing" "web_testing" "end";
        FlowOption "🔐 Authentication/Authorization" "auth" "end";
        FlowOption "📊 Security Monitoring" "monitoring" "end";
        FlowOption "🔙 Go Back" "back" "start" ]);
    ("doc_type", FlowQuestion "What documentation are you interested in?"
      [ FlowOption "📋 Security Standards/Checklists" "standards" "end";
        FlowOption "🏗️ Secure Development Guide" "secure_dev" "end";
        FlowOption "📖 Security Testing Guide" "testing_guide" "end";
        FlowOption "⚡ Quick Reference" "cheatsheet" "end";
        FlowOption "🔙 Go Back" "back" "start" ]);
    ("training_type", FlowQuestion "What kind of training are you looking for?"
      [ FlowOption "🎮 Hands-on Labs/CTF" "labs" "end";
        FlowOption "📺 Presentations/Slides" "presentations" "end";
        FlowOption "🎓 Courses/Curriculum" "courses" "end";
        FlowOption "🔙 Go Back" "back" "start" ]);
    ("vuln_app_type", FlowQuestion "What type of vulnerable application do you need?"
      [ FlowOption "🌐 Web Application" "vuln_web" "end";
        FlowOption "📱 Mobile Application" "vuln_mobile" "end";
        FlowOption "🔌 API Security" "vuln_api" "end";
        FlowOption "🔙 Go Back" "back" "start" ]) ].

(** ** Slack messages *)

Record button : Type := Button {
  b_text : string;
  b_style : option string;
  b_action_id : string;
  b_value : option string;
  b_url : option string
}.

Inductive block : Type :=
  | Header (text : string)
  | Section_ (text : string)
  | Divider
  | Actions (elements : list button).

(** One call of [send_dm]. *)
Record dm : Type := Dm {
  dm_user_id : string;
  dm_blocks : list block;
  dm_fallback_text : string
}.

(** ** The key-value store and the world around the worker *)

Definition CACHE_TTL_SECONDS : Z := 24 * 60 * 60.

(** The document under ["conversation:{user_id}"]. *)
Record conversation : Type := Conversation {
  selections : gmap string json;
  last_updated : Z
}.

(** The document under ["projects:cache"]. *)
Record catalog : Type := Catalog {
  timestamp : Z;
  projects : list project
}.

(** The document under ["stats:searches"]. *)
Record stats : Type := Stats {
  total : Z;
  categories : gmap string Z;
  last_search : Z
}.

(** A stored document with the time at which the store drops it
    ([expirationTtl] after the write; [None] when written without). *)
Record entry (A : Type) : Type := Entry {
  doc : A;
  expires_at : option Z
}.
Arguments Entry {A} doc expires_at.
Arguments doc {A} e.
Arguments expires_at {A} e.

(** The binding [SLACK_BOT_KV], one field per family of keys; each family
    is written by one method only, so the documents are kept decoded, with
    the fields that method writes. *)
Record kv : Type := Kv {
  conversations : gmap string (entry conversation);
  projects_cache : option (entry catalog);
  search_stats : option (entry stats)
}.

(** The world: the store, the clock ([time.time()], counted in whole
    seconds), the calls of [send_dm] so far, and the remote catalog source:
    what a fetch collects, how long it takes, and how many fetches were
    made. *)
Record World : Type := MkWorld {
  SLACK_BOT_KV : kv;
  clock : Z;
  outbox : list dm;
  upstream : list project;
  fetch_seconds : Z;
  fetch_count : nat
}.

(** ** The monad of the worker's methods: state and exceptions *)

Definition M (A : Type) : Type := World -> result A * World.

Global Instance M_ret : MRet M := fun A a w => (Ok a, w).
Global Instance M_bind : MBind M := fun A B k m w =>
  match m w with
  | (Ok a, w') => k a w'
  | (Raise e, w') => (Raise e, w')
  end.

Definition raise {A} (e : exn) : M A := fun w => (Raise e, w).

(** Lifting a pure computation that may raise. *)
Definition lift {A} (r : result A) : M A := fun w => (r, w).

(** [try: m except e: h] *)
Definition try_catch {A} (m : M A) (e : exn) (h : M A) : M A := fun w =>
  match m w with
  | (Ok a, w') => (Ok a, w')
  | (Raise e', w') => if decide (e' = e) then h w' else (Raise e', w')
  end.

Definition time_time : M Z := fun w => (Ok (clock w), w).

Definition set_kv (f : kv -> kv) : M unit := fun w =>
  (Ok tt, MkWorld (f (SLACK_BOT_KV w)) (clock w) (outbox w) (upstream w)
                  (fetch_seconds w) (fetch_count w)).

(** Time passing between two requests. *)
Definition elapse (d : Z) (w : World) : World :=
  MkWorld (SLACK_BOT_KV w) (clock w + d) (outbox w) (upstream w)
          (fetch_seconds w) (fetch_count w).

(** [KV.get]: an entry past its expiration is gone. *)
Definition live {A} (now : Z) (e : option (entry A)) : option A :=
  match e with
  | Some (Entry d (Some t)) => if now <? t then Some d else None
  | Some (Entry d None) => Some d
  | None => None
  end.

Definition kv_get {A} (slot : kv -> option (entry A)) : M (option A) := fun w =>
  (Ok (live (clock w) (slot (SLACK_BOT_KV w))), w).

(** [KV.put(key, value, expirationTtl=ttl)] *)
Definition kv_put_conversation (user_id : string) (state : conversation) (ttl : Z) : M unit :=
  now ← time_time;
  set_kv (fun s => Kv (<[user_id := Entry state (Some (now + ttl))]> (conversations s))
                      (projects_cache s) (search_stats s)).

Definition kv_put_projects_cache (data : catalog) (ttl : Z) : M unit :=
  now ← time_time;
  set_kv (fun s => Kv (conversations s) (Some (Entry data (Some (now + ttl)))) (search_stats s)).

Definition kv_put_search_stats (data : stats) : M unit :=
  set_kv (fun s => Kv (conversations s) (projects_cache s) (Some (Entry data None))).

(** The outbound boundary: the call is logged. The exchange with Slack is
    not modelled: its answers, which the method only prints, are taken to
    be JSON, so the method does not raise. *)
Definition send_dm (user_id : string) (blocks : list block) (fallback_text : string) : M unit :=
  fun w => (Ok tt, MkWorld (SLACK_BOT_KV w) (clock w) (outbox w ++ [Dm user_id blocks fallback_text])
                           (upstream w) (fetch_seconds w) (fetch_count w)).

(** The catalog fetcher, seen from the cache: it takes its time, returns
    what the remote source holds and never raises (every failure inside is
    caught and skipped). *)
Definition fetch_owasp_projects : M (list project) := fun w =>
  (Ok (upstream w),
   MkWorld (SLACK_BOT_KV w) (clock w + fetch_seconds w) (outbox w) (upstream w)
           (fetch_seconds w) (S (fetch_count w))).

(** ** The worker's methods *)

Definition send_welcome_message (user_id : string) : M unit :=
  send_dm user_id
    [ Header "🥬 Welcome to OWASP!";
      Section_ "Hello and welcome to the *OWASP* community! I'm the OWASP Project Finder Bot, and I'm here to help you discover the perfect OWASP project for your needs.";
      Section_ "Would you like me to help you find an OWASP project? I'll ask you a few questions to understand what you're looking for.";
      Actions
        [ Button "🔍 Find a Project" (Some "primary") "start_flowchart" (Some "start") None;
          Button "📖 Learn More" None "learn_more" (Some "learn") None ] ]
    "Welcome to OWASP!".

(** The document a flowchart button carries in its value. *)
Definition button_payload (question_key : string) (option : flow_option) : json :=
  JObj [("current", JStr question_key);
        ("selected", JStr (o_value option));
        ("next", JStr (o_next option))].

Definition send_flowchart_question (user_id question_key : string) : M unit :=
  match dict_get FLOWCHART_QUESTIONS question_key with
  | None => mret tt
  | Some question_data =>
      let buttons :=
        map (fun option =>
               Button (o_text option) None
                      ("flowchart_" +:+ question_key +:+ "_" +:+ o_value option)
                      (Some (json_dumps (button_payload question_key option)))
                      None)
            (q_options question_data) in
      send_dm user_id
        [Section_ ("*" +:+ q_question question_data +:+ "*"); Actions buttons]
        (q_question question_data)
  end.

Definition start_conversation (user_id : string) : M unit :=
  send_flowchart_question user_id "start".

Definition send_learn_more (user_id : string) : M unit :=
  send_dm user_id
    [ Section_ ("*About OWASP*" +:+ nl +:+ nl +:+ "The Open Worldwide Application Security Project (OWASP) is a nonprofit foundation that works to improve the security of software.");
      Section_ ("*Useful Links:*" +:+ nl +:+ "• <https://owasp.org|OWASP Website>" +:+ nl +:+ "• <https://owasp.org/projects/|All Projects>" +:+ nl +:+ "• <https://owasp.org/chapters/|Local Chapters>" +:+ nl +:+ "• <https://owasp.org/www-project-top-ten/|OWASP Top 10>");
      Actions [Button "🔍 Find a Project" (Some "primary") "start_flowchart" (Some "start") None] ]
    "About OWASP".

Definition store_user_selection (user_id : string) (question answer : json) : M unit :=
  existing ← kv_get (fun s => conversations s !! user_id);
  let state_selections := default ∅ (selections <$> existing) in
  key ← lift (dumped_key question);
  now ← time_time;
  kv_put_conversation user_id (Conversation (<[key := answer]> state_selections) now) 3600.

Definition get_cached_projects : M (list project) :=
  let fetch_fresh : M (list project) :=
    projects ← fetch_owasp_projects;
    now ← time_time;
    kv_put_projects_cache (Catalog now projects) CACHE_TTL_SECONDS;;
    mret projects in
  cached ← kv_get projects_cache;
  match cached with
  | Some data =>
      now ← time_time;
      if now - timestamp data <? CACHE_TTL_SECONDS then mret (projects data)
      else fetch_fresh
  | None => fetch_fresh
  end.

Definition refresh_project_cache : M unit :=
  projects ← fetch_owasp_projects;
  now ← time_time;
  kv_put_projects_cache (Catalog now projects) CACHE_TTL_SECONDS.

Definition record_search (user_id : string) (category : json) (results_count : nat) : M unit :=
  existing ← kv_get search_stats;
  let stats_total := default 0 (total <$> existing) in
  let stats_categories := default ∅ (categories <$> existing) in
  count ← lift (lookup_json (fun k => stats_categories !! k) category);
  key ← lift (dumped_key category);
  now ← time_time;
  kv_put_search_stats
    (Stats (stats_total + 1) (<[key := default 0 count + 1]> stats_categories) now).

Definition get_level_emoji (level : Z) : string :=
  if level =? 4 then "🏆"
  else if level =? 3 then "🥇"
  else if level =? 2 then "🥈"
  else if level =? 1 then "🥉"
  else "📦".

(** [filter_projects] called with a decoded value: a value that is not a
    string is no key of the mapping (or cannot be hashed). *)
Definition filter_projects_json (projects : list project) (category : json)
  : result (list project) :=
  match category with
  | JStr c => Ok (filter_projects projects c)
  | JArr _ | JObj _ => Raise TypeError
  | _ => Ok projects
  end.

Definition no_projects_blocks : list block :=
  [ Section_ ("😕 *No projects found matching your criteria.*" +:+ nl +:+ nl +:+ "Don't worry! OWASP has many other great projects.");
    Section_ "Would you like to try a different search, or learn how to start your own OWASP project?";
    Actions
      [ Button "🔄 Start Over" (Some "primary") "start_over" (Some "start") None;
        Button "🚀 Start a Project" None "new_project" None
               (Some "https://owasp.org/www-policy/operational/project-create") ] ].

Definition project_block (p : project) : block :=
  let level_emoji := get_level_emoji (default 0 (level p)) in
  Section_ (level_emoji +:+ " *<" +:+ default "#" (url p) +:+ "|" +:+
            default "Unknown Project" (title p) +:+ ">*" +:+ nl +:+
            PyStr.take 200 (default "No description available." (pitch p))).

Definition matching_blocks (matching : list project) : list block :=
  [ Section_ ("🎉 *Found " +:+ pretty (length matching) +:+ " project(s) matching your criteria!*");
    Divider ]
  ++ map project_block (take 5 matching)
  ++ [ Divider;
       Actions [Button "🔄 Search Again" None "start_over" (Some "start") None] ].

Definition show_matching_projects (user_id : string) (category : json) : M unit :=
  projects ← get_cached_projects;
  matching ← lift (filter_projects_json projects category);
  let blocks :=
    match matching with
    | [] => no_projects_blocks
    | _ => matching_blocks matching
    end in
  send_dm user_id blocks "Project search results";;
  record_search user_id category (length matching).

Section Worker.

(** [json.loads]; [None] stands for [JSONDecodeError]. The other
    exceptions [json.loads] can raise (the [ValueError] of an integer
    literal over the digit limit, [RecursionError]) have no run here. *)
Variable json_loads : string -> option json.

Definition handle_flowchart_action (user_id action_id value : string) : M unit :=
  if decide (action_id = "start_flowchart") then start_conversation user_id
  else if decide (action_id = "learn_more") then send_learn_more user_id
  else if decide (action_id = "start_over") then start_conversation user_id
  else if PyStr.startswith action_id "flowchart_" then
    try_catch
      (data ← lift (match json_loads value with
                    | Some d => Ok d
                    | None => Raise JSONDecodeError
                    end);
       selected ← lift (json_get data "selected");
       next_step ← lift (json_get data "next");
       current ← lift (json_get data "current");
       store_user_selection user_id current selected;;
       match next_step with
       | JStr next_key =>
           if decide (next_key = "end") then show_matching_projects user_id selected
           else send_flowchart_question user_id next_key
       | JArr _ | JObj _ => raise TypeError
       | _ => mret tt
       end)
      JSONDecodeError
      (start_conversation user_id)
  else mret tt.

End Worker.

(** ** The vocabulary of the specification *)

(** The key and the value a line of the front matter assigns, if any. *)
Definition line_fields (line : string) : option (string * string) :=
  let line := PyStr.strip line in
  if PyStr.contains ":" line then
    match PyStr.split ":" (Some 1%nat) line with
    | [key; value] => Some (PyStr.strip key, PyStr.strip value)
    | _ => None
    end
  else None.

(** The value stored for a key. *)
Definition field_value (key value : string) : pyvalue :=
  if decide (key = "tags") then
    if truthy (VStr value) then VList (PyStr.strip <$> PyStr.split "," None value)
    else VList []
  else if decide (key = "level") then
    VInt (match PyStr.int value with Ok z => z | Raise _ => 0 end)
  else VStr value.

(** The effect of one line on the dict. *)
Definition assign (metadata : gmap string pyvalue) (line : string) : gmap string pyvalue :=
  match line_fields line with
  | Some (key, value) => <[key := field_value key value]> metadata
  | None => metadata
  end.

(** [sub] occurs in [s] at index [i]. *)
Definition occurs_at (sub s : string) (i : nat) : Prop :=
  exists pre post, s = pre +:+ sub +:+ post /\ String.length pre = i.



(** A document made of the opening delimiter, the given lines, the
    closing delimiter and what follows it. *)
Definition front_matter_document (lines : list string) (rest : string) : string :=
  "---" +:+ nl +:+ PyStr.join nl lines +:+ nl +:+ "---" +:+ rest.

(** What the specification says of the tag ["code_analysis"]: the type is
    "tool" and one of the five keywords occurs in the searchable text. *)
Definition code_analysis_match (p : project) : Prop :=
  project_type p = "tool" /\
  exists kw, kw ∈ ["sast"; "code"; "analysis"; "dependency"; "scanner"] /\
    exists pre post, searchable p = pre +:+ kw +:+ post.

(** The same as a test. *)
Definition code_analysis_test (p : project) : bool :=
  bool_decide (project_type p = "tool") &&
  existsb (fun kw => PyStr.contains kw (searchable p))
    ["sast"; "code"; "analysis"; "dependency"; "scanner"].

(** What a read of the cache returns at the world's time. *)
Definition cached (w : World) : option catalog :=
  live (clock w) (projects_cache (SLACK_BOT_KV w)).

(** The world after a fetch that is stored in the cache. *)
Definition refreshed (w : World) : World :=
  let now := clock w + fetch_seconds w in
  MkWorld
    (Kv (conversations (SLACK_BOT_KV w))
        (Some (Entry (Catalog now (upstream w)) (Some (now + CACHE_TTL_SECONDS))))
        (search_stats (SLACK_BOT_KV w)))
    now (outbox w) (upstream w) (fetch_seconds w) (S (fetch_count w)).

(** The selections stored for a user. *)
Definition stored_selections (user_id : string) (w : World) : option (gmap string json) :=
  selections ∘ doc <$> conversations (SLACK_BOT_KV w) !! user_id.

(** The selections a read of the store returns at the world's time. *)
Definition current_selections (user_id : string) (w : World) : gmap string json :=
  default ∅ (selections <$> live (clock w) (conversations (SLACK_BOT_KV w) !! user_id)).

(** The world after an answer is recorded under the key [key]. *)
Definition recorded (user_id key : string) (answer : json) (w : World) : World :=
  MkWorld
    (Kv (<[user_id := Entry (Conversation (<[key := answer]> (current_selections user_id w))
                                          (clock w))
                            (Some (clock w + 3600))]>
           (conversations (SLACK_BOT_KV w)))
        (projects_cache (SLACK_BOT_KV w))
        (search_stats (SLACK_BOT_KV w)))
    (clock w) (outbox w) (upstream w) (fetch_seconds w) (fetch_count w).

(** A key the flowchart may move to: a node or the terminal marker. *)
Definition defined_key (key : string) : Prop :=
  key = "end" \/ is_Some (dict_get FLOWCHART_QUESTIONS key).

(** An option of the node [key] leads to [next_key]. *)
Definition edge (key next_key : string) : Prop :=
  exists question_data option,
    dict_get FLOWCHART_QUESTIONS key = Some question_data /\
    option ∈ q_options question_data /\
    o_next option = next_key.

(** The keys reachable from the start node. *)
Inductive reachable : string -> Prop :=
  | reachable_start : reachable "start"
  | reachable_step key next_key : reachable key -> edge key next_key -> reachable next_key.

(** The specification's [resolve]: the next key of the option of the node
    [node_key] whose value is [selection_value]. *)
Definition resolve (node_key selection_value : string) : option string :=
  question_data ← dict_get FLOWCHART_QUESTIONS node_key;
  option ← List.find (fun o => bool_decide (o_value o = selection_value))
                     (q_options question_data);
  Some (o_next option).

(** The checks run over the whole table. *)
Definition closed_option (option : flow_option) : bool :=
  bool_decide (o_next option = "end") ||
  bool_decide (is_Some (dict_get FLOWCHART_QUESTIONS (o_next option))).

Definition back_to_start (option : flow_option) : bool :=
  implb (bool_decide (o_value option = "back")) (bool_decide (o_next option = "start")).

Definition has_back_option (kq : string * flow_question) : bool :=
  bool_decide (kq.1 = "start") ||
  existsb (fun o => bool_decide (o_value o = "back")) (q_options kq.2).

(** ** Sample data: the documents, projects and worlds of the tests *)



(** A front matter whose level is a word. *)
Definition bad_level_document : string :=
  "---" +:+ nl +:+ "title: T" +:+ nl +:+ "level: high" +:+ nl +:+ "---".

(** The document of [test_parse_valid_frontmatter]. *)
Definition juice_shop_document : string :=
  front_matter_document
    ["layout: col-sidebar"; "title: OWASP Juice Shop"; "tags: juiceshop"; "level: 4";
     "type: tool"; "pitch: A great project for testing"]
    (nl +:+ nl +:+ "Some markdown content here." +:+ nl).

(** The two projects of [test_filter_tool_projects]. *)
Definition test_tool : project :=
  Project (Some "Test Tool") (Some "A code analysis tool") (Some []) (Some "tool") None None.
Definition test_doc : project :=
  Project (Some "Test Doc") (Some "A guide") (Some []) (Some "documentation") None None.

(** The two projects of [test_filter_documentation_projects]. *)
Definition test_standard : project :=
  Project (Some "Security Standard") (Some "A security checklist") (Some []) (Some "standard")
          None None.
Definition test_testing_tool : project :=
  Project (Some "Test Tool") (Some "A testing tool") (Some []) (Some "tool") None None.

(** An empty world at time [now]. *)
Definition empty_world (now : Z) : World :=
  MkWorld (Kv ∅ None None) now [] [] 0 0.

(** A world whose cache was written at time 100 and is read at time 200,
    and the same world a day later. *)
Definition cached_world (now : Z) : World :=
  MkWorld (Kv ∅ (Some (Entry (Catalog 100 [test_tool]) (Some (100 + CACHE_TTL_SECONDS)))) None)
          now [] [test_tool; test_doc] 7 0.

(** A decoder that knows the given texts only: enough to run the handler
    on chosen button values. *)
Definition loads_table (table : list (string * json)) (s : string) : option json :=
  dict_get table s.

(** A button value that names a node the flowchart does not have. *)
Definition stray_payload : json :=
  JObj [("current", JStr "start"); ("selected", JStr "tool"); ("next", JStr "nowhere")].

Definition stray_loads : string -> option json :=
  loads_table [(json_dumps stray_payload, stray_payload)].

(** The values of two buttons of the node "tool_type". *)
Definition back_payload : json :=
  button_payload "tool_type" (FlowOption "🔙 Go Back" "back" "start").

Definition code_analysis_payload : json :=
  button_payload "tool_type" (FlowOption "🔍 Code Analysis/SAST" "code_analysis" "end").

(** ** Further vocabulary: the matcher *)

(** The type test of the family a tag belongs to. *)
Definition type_compatible (category : string) (p : project) : bool :=
  if decide (category ∈ ["code_analysis"; "web_testing"; "auth"; "monitoring"]) then
    bool_decide (project_type p = "tool")
  else if decide (category ∈ ["standards"; "secure_dev"; "testing_guide"; "cheatsheet"]) then
    bool_decide (project_type p ∈ ["documentation"; "standard"])
  else if decide (category ∈ ["labs"; "presentations"; "courses"]) then true
  else if decide (category ∈ ["vuln_web"; "vuln_mobile"; "vuln_api"]) then
    bool_decide (project_type p ∈ ["tool"; "code"])
  else false.

(** A project passes the filter of a tag: its type suits the tag's family
    and one of the tag's keywords occurs in its searchable text. *)
Definition matches (category : string) (p : project) : bool :=
  type_compatible category p &&
  existsb (fun kw => PyStr.contains kw (searchable p))
          (default [] (dict_get category_mappings category)).

(** The values of the options that end the flowchart. *)
Definition terminal_values : list string :=
  flat_map (fun kq => map o_value (List.filter (fun o => bool_decide (o_next o = "end"))
                                               (q_options kq.2)))
           FLOWCHART_QUESTIONS.

(** The family of tags whose type test belongs to a node of the flowchart. *)
Definition node_family (key : string) : list string :=
  if decide (key = "tool_type") then ["code_analysis"; "web_testing"; "auth"; "monitoring"]
  else if decide (key = "doc_type") then ["standards"; "secure_dev"; "testing_guide"; "cheatsheet"]
  else if decide (key = "training_type") then ["labs"; "presentations"; "courses"]
  else if decide (key = "vuln_app_type") then ["vuln_web"; "vuln_mobile"; "vuln_api"]
  else [].

(** ** Further vocabulary: the store *)

(** A property of the world that a method keeps, however it ends. *)
Definition preserves {A} (P : World -> Prop) (m : M A) : Prop :=
  forall w, P w -> P (m w).2.

(** The cache entry expires when its catalog reaches the TTL: what every
    write of the worker establishes. *)
Definition cache_consistent (w : World) : Prop :=
  match projects_cache (SLACK_BOT_KV w) with
  | Some e => expires_at e = Some (timestamp (doc e) + CACHE_TTL_SECONDS)
  | None => True
  end.

(** What a read of the statistics returns at the world's time. *)
Definition current_stats (w : World) : option stats :=
  live (clock w) (search_stats (SLACK_BOT_KV w)).

(** The number of searches counted so far. *)
Definition searches (w : World) : Z := default 0 (total <$> current_stats w).

(** The searches counted for a tag. *)
Definition searches_of (category : string) (w : World) : Z :=
  default 0 (current_stats w ≫= fun s => categories s !! category).

(** The statistics never expire: what every write of the worker
    establishes. *)
Definition stats_permanent (w : World) : Prop :=
  match search_stats (SLACK_BOT_KV w) with
  | Some e => expires_at e = None
  | None => True
  end.

(** The sum of the counters of the tags. *)
Definition sum_counts (m : gmap string Z) : Z :=
  map_fold (fun _ n acc => n + acc) 0 m.

(** The total is the sum of the counters. *)
Definition stats_balanced (w : World) : Prop :=
  match current_stats w with
  | Some s => total s = sum_counts (categories s)
  | None => True
  end.

(** The shape of a parsed dict: every key and every text is stripped, the
    value of "tags" is a list of stripped texts, the value of "level" is
    an integer and every other value is a text. *)
Definition well_formed_metadata (metadata : gmap string pyvalue) : Prop :=
  forall key v, metadata !! key = Some v ->
    PyStr.strip key = key /\
    match v with
    | VList l => key = "tags" /\ Forall (fun t => PyStr.strip t = t) l
    | VInt _ => key = "level"
    | VStr s => key <> "tags" /\ key <> "level" /\ PyStr.strip s = s
    end.


(** ** Further vocabulary: the conversation *)

(** The catalog a search that starts in the world [w] works on: the cached
    one while it is younger than the TTL, else what a fetch collects. *)
Definition catalog_read (w : World) : list project :=
  match cached w with
  | Some data =>
      if clock w - timestamp data <? CACHE_TTL_SECONDS then projects data else upstream w
  | None => upstream w
  end.

(** The identifier and the value of the button sent for an option. *)
Definition option_action_id (question_key : string) (option : flow_option) : string :=
  "flowchart_" +:+ question_key +:+ "_" +:+ o_value option.

Definition option_value (question_key : string) (option : flow_option) : string :=
  json_dumps (button_payload question_key option).

(** ** Request verification *)









Section Verification.

(** [hmac.new(key, msg, hashlib.sha256).hexdigest()] of two texts, and the
    secret of the environment. *)
Variable hmac_sha256_hexdigest : string -> string -> string.
Variable SLACK_SIGNING_SECRET : string.


End Verification.




(** ** Further vocabulary: the messages *)

(** A method only adds calls of [send_dm], each of which satisfies [Q]. *)
Definition emits {A} (Q : dm -> Prop) (m : M A) : Prop :=
  forall w, exists l, outbox (m w).2 = outbox w ++ l /\ Forall Q l.

(** An action identifier that [handle_flowchart_action] acts on. *)
Definition handled (action_id : string) : Prop :=
  action_id = "start_flowchart" \/ action_id = "learn_more" \/ action_id = "start_over" \/
  PyStr.startswith action_id "flowchart_" = true.

(** A button that does something: it opens a link or the handler acts on
    its identifier. *)
Definition live_button (b : button) : Prop :=
  is_Some (b_url b) \/ handled (b_action_id b).

Definition live_block (b : block) : Prop :=
  match b with
  | Actions elements => Forall live_button elements
  | _ => True
  end.

(** A message for the user [user_id] whose buttons all do something. *)
Definition message_for (user_id : string) (d : dm) : Prop :=
  dm_user_id d = user_id /\ Forall live_block (dm_blocks d).

(** ** The catalog fetcher, inside *)

(** [s.replace(old, new)] for a non-empty [old]: the occurrences are taken
    from the left and do not overlap; [skip] counts the characters of an
    occurrence still to pass. *)
Fixpoint replace_aux (old new s : string) (skip : nat) : string :=
  match s with
  | EmptyString => EmptyString
  | String c s' =>
      match skip with
      | S k => replace_aux old new s' k
      | O =>
          if PyStr.startswith s old
          then new +:+ replace_aux old new s' (String.length old - 1)
          else String c (replace_aux old new s' 0)
      end
  end.

Definition str_replace (old new s : string) : string := replace_aux old new s 0.

Module Fetcher.

(** What the fetcher reads of a response. *)
Record response : Type := Response {
  status : Z;
  text : string
}.

(** A value of a fetched project: one the parser stored, or the decoded
    value copied from the repository listing. *)
Inductive field : Type :=
  | Parsed (v : pyvalue)
  | Listed (j : json).

Definition GITHUB_ORGS : list string := ["OWASP"].

Definition repos_url (org : string) : string :=
  "https://api.github.com/orgs/" +:+ org +:+ "/repos?per_page=100&type=public".

Definition index_url (org repo_name branch : string) : string :=
  "https://raw.githubusercontent.com/" +:+ org +:+ "/" +:+ repo_name +:+ "/" +:+ branch +:+
  "/index.md".

(** The fields the fetcher sets on a parsed dict. *)
Definition describe (org repo_name : string) (repo : list (string * json))
    (metadata : gmap string pyvalue) : gmap string field :=
  <["stars" := Listed (default (JInt 0) (dict_get repo "stargazers_count"))]>
    (<["github_url" := Parsed (VStr ("https://github.com/" +:+ org +:+ "/" +:+ repo_name))]>
       (<["url" := Parsed (VStr ("https://owasp.org/" +:+ str_replace "www-" "" repo_name +:+ "/"))]>
          (<["repo" := Parsed (VStr repo_name)]> (Parsed <$> metadata)))).

(** [for x in v] on a decoded value: the items of a list, the keys of an
    object, the characters of a text; nothing else can be iterated. *)
Definition iterate (v : json) : option (list json) :=
  match v with
  | JArr items => Some items
  | JObj fields => Some (JStr ∘ fst <$> fields)
  | JStr s => Some ((fun c => JStr (String c "")) <$> list_ascii_of_string s)
  | _ => None
  end.

Section Scan.

(** The remote side: what [fetch] answers for a URL, [None] when the call
    or the reading of the answer raises, and [json.loads], [None] when it
    raises. The answers are taken not to change during one scan. In the
    scan, [None] stands for an exception, all of which the two handlers
    catch. *)
Variable http : string -> option response.
Variable json_loads : string -> option json.

(** The inner [try] block: the dict to append, if any. *)
Definition fetch_index (org repo_name : string) (repo : list (string * json))
  : option (option (gmap string field)) :=
  index_response ← http (index_url org repo_name "main");
  index_response ←
    (if negb (status index_response =? 200)
     then http (index_url org repo_name "master")
     else Some index_response);
  if status index_response =? 200 then
    match parse_index_md (text index_response) with
    | Ok (Some metadata) =>
        if decide (metadata = ∅) then Some None
        else Some (Some (describe org repo_name repo metadata))
    | Ok None => Some None
    | Raise _ => None
    end
  else Some None.

(** The body of the loop over the repositories; [None] when an exception
    leaves it. *)
Definition repo_step (org : string) (projects : list (gmap string field)) (repo : json)
  : option (list (gmap string field)) :=
  match repo with
  | JObj fields =>
      match default (JStr "") (dict_get fields "name") with
      | JStr repo_name =>
          if negb (PyStr.startswith repo_name "www-project-") then Some projects
          else
            match fetch_index org repo_name fields with
            | Some (Some metadata) => Some (projects ++ [metadata])
            | _ => Some projects
            end
      | _ => None
      end
  | _ => None
  end.

(** The loop over the repositories: an exception ends it, and what was
    appended stays. *)
Fixpoint scan_repos (org : string) (projects : list (gmap string field)) (repos : list json)
  : list (gmap string field) :=
  match repos with
  | [] => projects
  | repo :: repos' =>
      match repo_step org projects repo with
      | Some projects' => scan_repos org projects' repos'
      | None => projects
      end
  end.

(** The body of the loop over the organizations. *)
Definition org_step (projects : list (gmap string field)) (org : string)
  : list (gmap string field) :=
  match http (repos_url org) with
  | Some repos_response =>
      if negb (status repos_response =? 200) then projects
      else
        match json_loads (text repos_response) ≫= iterate with
        | Some repos => scan_repos org projects repos
        | None => projects
        end
  | None => projects
  end.

Definition fetch_owasp_projects : list (gmap string field) :=
  fold_left org_step GITHUB_ORGS [].

End Scan.

End Fetcher.

(** The name under which a repository is listed, when the entry is an
    object with a text for name. *)
Definition listed_name (repo : json) : option string :=
  match repo with
  | JObj fields =>
      match dict_get fields "name" with
      | Some (JStr repo_name) => Some repo_name
      | _ => None
      end
  | _ => None
  end.

(** The repository a fetched project came from. *)
Definition project_repo (metadata : gmap string Fetcher.field) : option string :=
  match metadata !! "repo" with
  | Some (Fetcher.Parsed (VStr repo_name)) => Some repo_name
  | _ => None
  end.

(** The listing of the organization was fetched and is the list [repos]. *)
Definition listing (http : string -> option Fetcher.response)
    (json_loads : string -> option json) (repos : list json) : Prop :=
  exists repos_response,
    http (Fetcher.repos_url "OWASP") = Some repos_response /\
    Fetcher.status repos_response = 200 /\
    json_loads (Fetcher.text repos_response) = Some (JArr repos).

(** A remote side with two repositories, the second without an index
    page, and the decoder of its listing. *)
Definition sample_repos : list json :=
  [JObj [("name", JStr "www-project-juice-shop"); ("stargazers_count", JInt 7)];
   JObj [("name", JStr "www-project-empty")]].

Definition sample_http (url : string) : option Fetcher.response :=
  if decide (url = Fetcher.repos_url "OWASP") then Some (Fetcher.Response 200 "listing")
  else if decide (url = Fetcher.index_url "OWASP" "www-project-juice-shop" "main")
  then Some (Fetcher.Response 200 juice_shop_document)
  else Some (Fetcher.Response 404 "").

Definition sample_loads (s : string) : option json :=
  if decide (s = "listing") then Some (JArr sample_repos) else None.


(** * Part II: properties *)

(** ** Strings *)

Section StrFacts.

Import PyStr.
Local Arguments String.append !_ _ / : simpl nomatch.

Lemma startswith_app s p : startswith s p = true <-> exists post, s = p +:+ post.
Proof.
  revert s. induction p as [|a p IH]; intros s; simpl.
  - split; [intros _; by exists s | done].
  - destruct s as [|b s].
    + split; [done | by intros [post H]].
    + case_decide as Hab.
      * subst b. rewrite IH. split; intros [post H]; exists post.
        -- by rewrite H.
        -- by injection H.
      * split; [done | intros [post H]; injection H; congruence].
Qed.

Lemma contains_occurs sub s :
  contains sub s = true <-> exists pre post, s = pre +:+ sub +:+ post.
Proof.
  induction s as [|c s IH]; simpl.
  - rewrite orb_false_r, startswith_app. split.
    + intros [post H]. by exists "", post.
    + intros (pre & post & H). destruct pre; [by exists post | done].
  - rewrite orb_true_iff, IH, startswith_app. split.
    + intros [[post H] | (pre & post & H)].
      * by exists "", post.
      * exists (String c pre), post. by rewrite H.
    + intros (pre & post & H). destruct pre as [|c' pre].
      * left. by exists post.
      * right. exists pre, post. by injection H.
Qed.

Lemma find_aux_Some sub s i j :
  find_aux sub s i = Some j ->
  exists pre post, s = pre +:+ sub +:+ post /\ j = (i + String.length pre)%nat.
Proof.
  revert i. induction s as [|c s IH]; intros i; simpl.
  - destruct (startswith "" sub) eqn:E; [|done].
    intros [= <-]. apply startswith_app in E as [post E].
    exists "", post. split; [done | simpl; lia].
  - destruct (startswith (String c s) sub) eqn:E.
    + intros [= <-]. apply startswith_app in E as [post E].
      exists "", post. split; [done | simpl; lia].
    + intros H. apply IH in H as (pre & post & -> & ->).
      exists (String c pre), post. split; [done | simpl; lia].
Qed.

Lemma str_take_drop n s : take n s +:+ drop n s = s.
Proof.
  revert s. induction n as [|n IH]; intros [|c s]; simpl; try done.
  by rewrite IH.
Qed.

Lemma str_length_take n s : (n <= String.length s)%nat -> String.length (take n s) = n.
Proof.
  revert s. induction n as [|n IH]; intros [|c s]; simpl; try lia.
  intros H. rewrite IH; lia.
Qed.

Lemma str_append_assoc (a b c : string) : (a +:+ b) +:+ c = a +:+ b +:+ c.
Proof. induction a as [|x a IH]; simpl; [done | by rewrite IH]. Qed.

Lemma str_length_append (a b : string) :
  String.length (a +:+ b) = (String.length a + String.length b)%nat.
Proof. induction a as [|x a IH]; simpl; [done | by rewrite IH]. Qed.


(** Splitting once at a character that occurs yields two pieces. *)
Lemma split_once c s :
  contains (String c "") s = true ->
  exists a b, split c (Some 1%nat) s = [a; b].
Proof.
  induction s as [|x s IH]; simpl.
  - done.
  - case_decide as Hx.
    + intros _. subst x. case_decide; [|done]. simpl.
      assert (Hall : forall t, split c (Some 0%nat) t = [t]).
      { clear. induction t as [|y t IH]; simpl; [done|].
        case_decide; [done|]. by rewrite IH. }
      rewrite Hall. eauto.
    + simpl. intros H. case_decide; [congruence|].
      destruct (IH H) as (a & b & ->). eauto.
Qed.

(** [int] raises nothing but [ValueError]. *)
Lemma int_raises s e : int s = Raise e -> e = ValueError.
Proof.
  unfold int. destruct (strip s) as [|c t]; simpl.
  - by intros [= <-].
  - destruct (let '(sign, body) := _ in _) eqn:E; [done|].
    intros [= <-]. revert E.
    repeat match goal with
           | |- context [match ?x with _ => _ end] => destruct x
           end; congruence.
Qed.

Lemma find_aux_app sub pre s i :
  (forall k, (k < String.length pre)%nat -> startswith (drop k (pre +:+ s)) sub = false) ->
  find_aux sub (pre +:+ s) i = find_aux sub s (i + String.length pre).
Proof.
  revert i. induction pre as [|c pre IH]; intros i H; simpl.
  - f_equal. lia.
  - pose proof (H 0%nat) as H0. simpl in H0. rewrite H0 by lia.
    rewrite IH; [f_equal; lia|].
    intros k Hk. apply (H (S k)). simpl. lia.
Qed.

Lemma startswith_dashes_line X u :
  startswith X "---" = false -> startswith (X +:+ String newline u) "---" = false.
Proof.
  destruct X as [|a [|b [|c X]]]; simpl; repeat case_decide; subst; try done.
Qed.

Lemma no_dashes_inside X u k :
  contains "---" X = false -> (k < String.length X)%nat ->
  startswith (drop k (X +:+ String newline u)) "---" = false.
Proof.
  revert k. induction X as [|c X IH]; intros k H Hk; [simpl in Hk; lia|].
  change (contains "---" (String c X)) with
    (startswith (String c X) "---" || contains "---" X) in H.
  apply orb_false_iff in H as [H1 H2].
  destruct k as [|k].
  - by apply startswith_dashes_line.
  - simpl. apply IH; [done | simpl in Hk; lia].
Qed.

Lemma str_take_app_length a b : take (String.length a) (a +:+ b) = a.
Proof. induction a as [|c a IH]; simpl; [by destruct b | by rewrite IH]. Qed.

Lemma rstrip_app a b : rstrip b <> "" -> rstrip (a +:+ b) = a +:+ rstrip b.
Proof.
  intros Hb. induction a as [|c a IH]; simpl; [done|].
  rewrite IH. destruct (a +:+ rstrip b) eqn:E; [|done].
  destruct a; simpl in E; congruence.
Qed.

Lemma rstrip_idemp s : rstrip (rstrip s) = rstrip s.
Proof.
  induction s as [|c s IH]; simpl; [done|].
  destruct (rstrip s) as [|d r] eqn:E.
  - destruct (isspace c) eqn:Hc; simpl; [done | by rewrite Hc].
  - simpl in *. by rewrite IH.
Qed.

Lemma split_zero sep t : split sep (Some 0%nat) t = [t].
Proof.
  induction t as [|y t IH]; simpl; [done|].
  case_decide; [done|]. by rewrite IH.
Qed.

Lemma split_app sep a b :
  contains (String sep "") a = false ->
  split sep None (a +:+ String sep b) = a :: split sep None b.
Proof.
  induction a as [|c a IH]; simpl.
  - intros _. by rewrite decide_True.
  - case_decide as Hc; [done|]. simpl. intros H.
    rewrite decide_False by congruence. by rewrite IH.
Qed.

Lemma split_once_app sep a b :
  contains (String sep "") a = false ->
  split sep (Some 1%nat) (a +:+ String sep b) = [a; b].
Proof.
  induction a as [|c a IH]; simpl.
  - intros _. rewrite decide_True by done. by rewrite split_zero.
  - case_decide as Hc; [done|]. simpl. intros H.
    rewrite decide_False by congruence. by rewrite IH.
Qed.

Lemma find_from_prefix p s sub :
  find (p +:+ s) sub (String.length p) =
  match find_aux sub s (String.length p) with
  | Some i => Z.of_nat i
  | None => -1
  end.
Proof.
  unfold find.
  assert (Hlen : (String.length (p +:+ s) <? String.length p)%nat = false).
  { apply Nat.ltb_ge. rewrite str_length_append. lia. }
  rewrite Hlen. clear Hlen.
  assert (Hdrop : drop (String.length p) (p +:+ s) = s).
  { induction p as [|c p IH]; simpl; [done | apply IH]. }
  by rewrite Hdrop.
Qed.

End StrFacts.


Example int_literals :
  PyStr.int "1_000" = Ok 1000 /\ PyStr.int "-07" = Ok (-7) /\ PyStr.int "+ 7" = Raise ValueError /\
  PyStr.int "4.5" = Raise ValueError /\ PyStr.int "" = Raise ValueError /\
  PyStr.int "7_" = Raise ValueError.
Proof. repeat split. Qed.

(** ** The front-matter parser *)

(** One step of the loop never raises, and stores what [assign] says. *)
Lemma parse_line_assign metadata line : parse_line metadata line = Ok (assign metadata line).
Proof.
  unfold parse_line, assign, line_fields.
  destruct (PyStr.contains ":" (PyStr.strip line)) eqn:Hc; [|done].
  destruct (split_once _ _ Hc) as (a & b & ->).
  unfold field_value. repeat case_decide; try done.
  - by destruct (truthy (VStr (PyStr.strip b))).
  - destruct (PyStr.int (PyStr.strip b)) as [z|e] eqn:E; [done|].
    by rewrite (int_raises _ _ E).
Qed.

Lemma for_each_parse_line lines metadata :
  for_each parse_line lines metadata = Ok (fold_left assign lines metadata).
Proof.
  revert metadata. induction lines as [|l lines IH]; intros m; simpl; [done|].
  rewrite parse_line_assign. simpl. apply IH.
Qed.

Lemma fold_left_assign_other lines metadata k :
  (forall l, l ∈ lines -> fst <$> line_fields l <> Some k) ->
  fold_left assign lines metadata !! k = metadata !! k.
Proof.
  revert metadata. induction lines as [|l lines IH]; intros m H; simpl; [done|].
  rewrite IH by (intros l' Hl'; apply H; by right).
  unfold assign. specialize (H l (list_elem_of_here _ _)).
  destruct (line_fields l) as [[key value]|]; [|done].
  apply lookup_insert_ne. simpl in H. congruence.
Qed.

(** Without a line for the key "title" the parsed metadata has no title. *)
Lemma no_title_line lines :
  (forall l, l ∈ lines -> fst <$> line_fields l <> Some "title") ->
  exists metadata, for_each parse_line lines ∅ = Ok metadata /\ metadata !! "title" = None.
Proof.
  intros H. eexists. split; [apply for_each_parse_line|].
  by rewrite fold_left_assign_other.
Qed.


(** The line "title: X" stores [X] under the key "title". *)
Lemma title_line X metadata :
  X <> "" -> PyStr.strip X = X ->
  assign metadata ("title: " +:+ X) = <["title" := VStr X]> metadata.
Proof.
  intros Hne Hstrip.
  assert (Hr : PyStr.rstrip X = X).
  { rewrite <- Hstrip at 1. unfold PyStr.strip. by rewrite rstrip_idemp. }
  assert (Hline : PyStr.strip ("title: " +:+ X) = "title: " +:+ X).
  { unfold PyStr.strip. change (PyStr.lstrip ("title: " +:+ X)) with ("title: " +:+ X).
    rewrite rstrip_app; by rewrite Hr. }
  unfold assign, line_fields. rewrite Hline.
  change (PyStr.contains ":" ("title: " +:+ X)) with true. cbv iota.
  change ("title: " +:+ X) with ("title" +:+ String ":" (" " +:+ X)).
  rewrite split_once_app by done.
  change (PyStr.strip "title") with "title".
  change (PyStr.strip (" " +:+ X)) with (PyStr.strip X). rewrite Hstrip.
  done.
Qed.

(** No "---" starts inside a literal prefix: checked position by position. *)
Ltac no_match_in_literal :=
  let k := fresh "k" in let Hk := fresh "Hk" in
  intros k Hk; repeat (destruct k as [|k]; [reflexivity|]); simpl in Hk; lia.

(** The front matter of a document whose title is [X]. *)
Lemma title_frontmatter X rest :
  PyStr.rstrip X = X -> X <> "" -> PyStr.contains "---" X = false ->
  frontmatter (front_matter_document ["title: " +:+ X; "level: 3"; "tags: a, b"] rest) =
  Some ("title: " +:+ X +:+ nl +:+ "level: 3" +:+ nl +:+ "tags: a, b").
Proof.
  intros Hr Hne Hdash.
  set (tail := nl +:+ "level: 3" +:+ nl +:+ "tags: a, b" +:+ nl).
  set (body := nl +:+ "title: " +:+ X +:+ tail).
  assert (Hdoc : front_matter_document ["title: " +:+ X; "level: 3"; "tags: a, b"] rest =
                 "---" +:+ body +:+ "---" +:+ rest).
  { unfold front_matter_document, body, tail. simpl PyStr.join.
    rewrite !str_append_assoc. reflexivity. }
  rewrite Hdoc. clear Hdoc.
  unfold frontmatter.
  change (PyStr.startswith ("---" +:+ body +:+ "---" +:+ rest) "---") with true.
  cbv iota. simpl negb. cbv iota.
  change 3%nat with (String.length "---").
  rewrite find_from_prefix.
  assert (Hfind : PyStr.find_aux "---" (body +:+ "---" +:+ rest) (String.length "---") =
                  Some (String.length "---" + String.length body)%nat).
  { assert (Hbody : body +:+ "---" +:+ rest =
                     (nl +:+ "title: ") +:+ X +:+ tail +:+ "---" +:+ rest).
    { unfold body. by rewrite !str_append_assoc. }
    rewrite Hbody. clear Hbody.
    rewrite find_aux_app by no_match_in_literal.
    rewrite find_aux_app by (intros k Hk; by apply no_dashes_inside).
    rewrite find_aux_app by no_match_in_literal.
    simpl PyStr.find_aux. f_equal.
    unfold body. rewrite !str_length_append. simpl. lia. }
  rewrite Hfind.
  destruct (Z.eqb_spec (Z.of_nat (String.length "---" + String.length body)) (-1)) as [?|_]; [lia|].
  f_equal. unfold PyStr.slice.
  replace (Z.to_nat (Z.of_nat (String.length "---" + String.length body) - 3))
    with (String.length body) by (simpl; lia).
  change (PyStr.drop (Z.to_nat 3) ("---" +:+ body +:+ "---" +:+ rest))
    with (body +:+ "---" +:+ rest).
  rewrite str_take_app_length.
  unfold PyStr.strip.
  change (PyStr.lstrip body) with (("title: " +:+ X) +:+ tail).
  rewrite rstrip_app by done.
  change (PyStr.rstrip tail) with (nl +:+ "level: 3" +:+ nl +:+ "tags: a, b").
  by rewrite str_append_assoc.
Qed.

Lemma parse_index_md_any_order (lines : list string) (rest : string) :
  lines ≡ₚ ["title: X"; "level: 3"; "tags: a, b"] ->
  parse_index_md (front_matter_document lines rest) =
  Ok (Some (<["title" := VStr "X"]>
           (<["level" := VInt 3]>
           (<["tags" := VList ["a"; "b"]]> ∅)))).
Proof.
  intros Hp. symmetry in Hp. apply permutations_Permutation in Hp.
  vm_compute in Hp.
  repeat (apply elem_of_cons in Hp as [-> | Hp]; [vm_compute; reflexivity|]).
  by apply elem_of_nil in Hp.
Qed.

Lemma parse_index_md_any_title (X rest : string) :
  X <> "" -> PyStr.strip X = X ->
  PyStr.contains nl X = false -> PyStr.contains "---" X = false ->
  parse_index_md (front_matter_document ["title: " +:+ X; "level: 3"; "tags: a, b"] rest) =
  Ok (Some (<["title" := VStr X]>
           (<["level" := VInt 3]>
           (<["tags" := VList ["a"; "b"]]> ∅)))).
Proof.
  intros Hne Hstrip Hnl Hdash.
  assert (Hr : PyStr.rstrip X = X).
  { rewrite <- Hstrip at 1. unfold PyStr.strip. by rewrite rstrip_idemp. }
  unfold parse_index_md. rewrite title_frontmatter by done.
  rewrite for_each_parse_line.
  change ("title: " +:+ X +:+ nl +:+ "level: 3" +:+ nl +:+ "tags: a, b")
    with (("title: " +:+ X) +:+ String newline ("level: 3" +:+ nl +:+ "tags: a, b")).
  rewrite split_app by (simpl; exact Hnl).
  change (PyStr.split newline None ("level: 3" +:+ nl +:+ "tags: a, b"))
    with ["level: 3"; "tags: a, b"].
  simpl fold_left. rewrite title_line by done.
  change (assign (assign (<["title" := VStr X]> ∅) "level: 3") "tags: a, b")
    with (<["tags" := VList ["a"; "b"]]> (<["level" := VInt 3]> (<["title" := VStr X]> ∅))
            : gmap string pyvalue).
  simpl rbind.
  rewrite lookup_insert_ne by done. rewrite lookup_insert_ne by done.
  rewrite lookup_insert_eq.
  assert (Ht : truthy (VStr X) = true) by (by destruct X).
  rewrite Ht. vm_compute. reflexivity.
Qed.

(** C4: a document that opens with the delimiter, has the lines
    "title: X", "level: 3" and "tags: a, b" and then the closing delimiter
    parses to the record with title "X", level 3 and tags ["a"; "b"]. This
    holds for the three lines in any order and whatever follows the closing
    delimiter; and with any title in the place of X that is not empty, has
    no white space at its ends, no line break and no "---" inside. *)
Theorem parse_index_md_well_formed :
  (forall lines rest,
     lines ≡ₚ ["title: X"; "level: 3"; "tags: a, b"] ->
     parse_index_md (front_matter_document lines rest) =
     Ok (Some (<["title" := VStr "X"]>
              (<["level" := VInt 3]>
              (<["tags" := VList ["a"; "b"]]> ∅))))) /\
  (forall X rest,
     X <> "" -> PyStr.strip X = X ->
     PyStr.contains nl X = false -> PyStr.contains "---" X = false ->
     parse_index_md
       (front_matter_document ["title: " +:+ X; "level: 3"; "tags: a, b"] rest) =
     Ok (Some (<["title" := VStr X]>
              (<["level" := VInt 3]>
              (<["tags" := VList ["a"; "b"]]> ∅))))).
Proof. split; [exact parse_index_md_any_order | exact parse_index_md_any_title]. Qed.

Lemma parse_index_md_well_formed_witness :
  parse_index_md (front_matter_document ["title: X"; "level: 3"; "tags: a, b"] nl) =
  Ok (Some (<["title" := VStr "X"]>
           (<["level" := VInt 3]>
           (<["tags" := VList ["a"; "b"]]> ∅)))) /\
  parse_index_md
    (front_matter_document ["title: OWASP Juice Shop"; "level: 3"; "tags: a, b"] nl) =
  Ok (Some (<["title" := VStr "OWASP Juice Shop"]>
           (<["level" := VInt 3]>
           (<["tags" := VList ["a"; "b"]]> ∅)))).
Proof.
  split.
  - apply (proj1 parse_index_md_well_formed). reflexivity.
  - apply (proj2 parse_index_md_well_formed "OWASP Juice Shop" nl).
    + discriminate.
    + reflexivity.
    + reflexivity.
    + reflexivity.
Defined.


(** Conversely, a record is returned only for a document with both
    delimiters, and it has a title that is not empty. *)
Lemma parse_index_md_record content metadata :
  parse_index_md content = Ok (Some metadata) ->
  PyStr.startswith content "---" = true /\
  (exists i, (3 <= i)%nat /\ occurs_at "---" content i) /\
  exists v, metadata !! "title" = Some v /\ truthy v = true.
Proof.
  unfold parse_index_md, frontmatter.
  destruct (PyStr.startswith content "---") eqn:Hstart; simpl; [|done].
  destruct (PyStr.find content "---" 3 =? -1) eqn:Hfind; [done|].
  rewrite for_each_parse_line. simpl.
  destruct (_ !! "title") as [v|] eqn:Ht; [|done].
  destruct (truthy v) eqn:Hv; [|done]. intros [= <-].
  split; [done|]. split; [|by exists v].
  apply Z.eqb_neq in Hfind. unfold PyStr.find in Hfind.
  destruct (String.length content <? 3)%nat eqn:Hlen; [done|].
  apply Nat.ltb_ge in Hlen.
  destruct (PyStr.find_aux "---" (PyStr.drop 3 content) 3) as [j|] eqn:E; [|done].
  apply find_aux_Some in E as (pre & post & E & ->).
  exists (3 + String.length pre)%nat. split; [lia|].
  exists (PyStr.take 3 content +:+ pre), post. split.
  - rewrite str_append_assoc, <- E. by rewrite str_take_drop.
  - rewrite str_length_append, str_length_take; lia.
Qed.



(** C9: [parse_index_md] never raises; a line "level: v" whose [v] is not
    an integer stores level 0; and so the record of a document whose last
    line for "level" is such a line has level 0. *)
Theorem level_defaults_to_zero :
  (forall content, exists r, parse_index_md content = Ok r) /\
  (forall metadata line value,
     line_fields line = Some ("level", value) ->
     PyStr.int value = Raise ValueError ->
     parse_line metadata line = Ok (<["level" := VInt 0]> metadata)) /\
  (forall content fm before line after value metadata,
     frontmatter content = Some fm ->
     PyStr.split newline None fm = before ++ line :: after ->
     line_fields line = Some ("level", value) ->
     PyStr.int value = Raise ValueError ->
     (forall l, l ∈ after -> fst <$> line_fields l <> Some "level") ->
     parse_index_md content = Ok (Some metadata) ->
     metadata !! "level" = Some (VInt 0)).
Proof.
  assert (Hline : forall metadata line value,
     line_fields line = Some ("level", value) ->
     PyStr.int value = Raise ValueError ->
     assign metadata line = <["level" := VInt 0]> metadata).
  { intros m line value Hf Hint. unfold assign. rewrite Hf.
    unfold field_value. simpl. by rewrite Hint. }
  split; [|split].
  - intros content. unfold parse_index_md.
    destruct (frontmatter content) as [fm|]; [|by eexists].
    rewrite for_each_parse_line. simpl.
    destruct (_ !! "title") as [v|]; [destruct (truthy v)|]; by eexists.
  - intros m line value Hf Hint. rewrite parse_line_assign. f_equal. by eapply Hline.
  - intros content fm before line after value md Hfm Hsplit Hf Hint Hafter.
    unfold parse_index_md. rewrite Hfm, for_each_parse_line, Hsplit. simpl.
    destruct (_ !! "title") as [v|] eqn:Ht; [destruct (truthy v)|]; try done.
    intros [= <-]. rewrite fold_left_app. simpl.
    rewrite fold_left_assign_other by done.
    rewrite (Hline _ _ _ Hf Hint). apply lookup_insert_eq.
Qed.

Lemma level_defaults_to_zero_witness :
  parse_line ∅ "level: high" = Ok (<["level" := VInt 0]> ∅) /\
  exists metadata,
    parse_index_md bad_level_document = Ok (Some metadata) /\
    metadata !! "level" = Some (VInt 0).
Proof.
  split.
  - apply (proj1 (proj2 level_defaults_to_zero) ∅ "level: high" "high"); reflexivity.
  - eexists. split; [vm_compute; reflexivity|].
    apply (proj2 (proj2 level_defaults_to_zero) bad_level_document
             ("title: T" +:+ nl +:+ "level: high") ["title: T"] "level: high" [] "high").
    + reflexivity.
    + reflexivity.
    + reflexivity.
    + reflexivity.
    + intros l Hl. by apply elem_of_nil in Hl.
    + vm_compute. reflexivity.
Defined.

Example parse_valid_frontmatter :
  exists metadata,
    parse_index_md juice_shop_document = Ok (Some metadata) /\
    metadata !! "title" = Some (VStr "OWASP Juice Shop") /\
    metadata !! "level" = Some (VInt 4) /\
    metadata !! "type" = Some (VStr "tool") /\
    metadata !! "tags" = Some (VList ["juiceshop"]).
Proof. eexists. split; [vm_compute; reflexivity|]. repeat split. Qed.

Example parse_empty_content : parse_index_md "" = Ok None.
Proof. reflexivity. Qed.

(** The closing delimiter is the first "---" after the opening one, also
    inside a value. *)
Example dashes_close_the_block :
  parse_index_md ("---" +:+ nl +:+ "title: a---b" +:+ nl) = Ok (Some {["title" := VStr "a"]}).
Proof. vm_compute. reflexivity. Qed.

(** ** The project matcher *)

Lemma append_on_keyword_spec keywords p matching :
  append_on_keyword keywords p matching =
  if existsb (fun kw => PyStr.contains kw (searchable p)) keywords
  then matching ++ [p] else matching.
Proof.
  induction keywords as [|kw kws IH]; simpl; [done|].
  destruct (PyStr.contains kw (searchable p)); [done | apply IH].
Qed.

Lemma existsb_contains keywords s :
  existsb (fun kw => PyStr.contains kw s) keywords = true <->
  exists kw, kw ∈ keywords /\ exists pre post, s = pre +:+ kw +:+ post.
Proof.
  rewrite existsb_exists. setoid_rewrite contains_occurs.
  by setoid_rewrite list_elem_of_In.
Qed.

(** A loop that appends the elements passing a test builds the filtered
    list after what was there. *)
Lemma fold_left_append_if {A} (test : A -> bool) (xs acc : list A) :
  fold_left (fun acc x => if test x then acc ++ [x] else acc) xs acc =
  acc ++ List.filter test xs.
Proof.
  revert acc. induction xs as [|x xs IH]; intros acc; simpl.
  - by rewrite app_nil_r.
  - rewrite IH. destruct (test x); [|done]. by rewrite <- app_assoc.
Qed.

Lemma sublist_filter {A} (test : A -> bool) (xs : list A) :
  List.filter test xs `sublist_of` xs.
Proof.
  induction xs as [|x xs IH]; simpl; [constructor|].
  destruct (test x); by constructor.
Qed.

Lemma code_analysis_test_spec p : code_analysis_test p = true <-> code_analysis_match p.
Proof.
  unfold code_analysis_test, code_analysis_match.
  by rewrite andb_true_iff, bool_decide_eq_true, existsb_contains.
Qed.

Lemma filter_step_code_analysis acc p :
  filter_step "code_analysis" ["sast"; "code"; "analysis"; "dependency"; "scanner"] acc p =
  if code_analysis_test p then acc ++ [p] else acc.
Proof.
  unfold filter_step, code_analysis_test.
  rewrite decide_True by set_solver.
  rewrite append_on_keyword_spec.
  case_decide; [by rewrite bool_decide_eq_true_2 | by rewrite bool_decide_eq_false_2].
Qed.

Lemma filter_projects_code_analysis_filter projects :
  filter_projects projects "code_analysis" = List.filter code_analysis_test projects.
Proof.
  unfold filter_projects. simpl.
  rewrite <- (app_nil_l (List.filter _ _)), <- fold_left_append_if.
  generalize (@nil project) at 1 3.
  induction projects as [|p ps IH]; intros acc; simpl; [done|].
  by rewrite filter_step_code_analysis, IH.
Qed.

(** C1: a tag that is not a key of the category mapping leaves the list of
    projects as it is. *)
Theorem filter_projects_unknown_tag (projects : list project) (category : string) :
  dict_get category_mappings category = None ->
  filter_projects projects category = projects.
Proof. intros H. unfold filter_projects. by rewrite H. Qed.

Lemma filter_projects_unknown_tag_witness :
  dict_get category_mappings "totally_unknown_tag" = None /\
  filter_projects [test_tool; test_doc] "totally_unknown_tag" = [test_tool; test_doc].
Proof.
  split; [reflexivity | apply filter_projects_unknown_tag; reflexivity].
Defined.

(** C2: on the tag "code_analysis" the matcher returns exactly the projects
    whose lower-cased type is "tool" and whose searchable text (the
    lower-cased title, pitch, tags and type) contains one of "sast", "code",
    "analysis", "dependency", "scanner", in the order of the input. *)
Theorem filter_projects_code_analysis (projects : list project) :
  filter_projects projects "code_analysis" `sublist_of` projects /\
  (forall p, p ∈ filter_projects projects "code_analysis" <->
             p ∈ projects /\ code_analysis_match p) /\
  (forall p, code_analysis_match p ->
             count_occ project_eq_dec (filter_projects projects "code_analysis") p =
             count_occ project_eq_dec projects p).
Proof.
  rewrite filter_projects_code_analysis_filter. split; [apply sublist_filter|]. split.
  - intros p. rewrite !list_elem_of_In, filter_In, code_analysis_test_spec. done.
  - intros p Hp. apply code_analysis_test_spec in Hp.
    induction projects as [|q qs IH]; simpl; [done|].
    destruct (code_analysis_test q) eqn:Hq; simpl.
    + destruct (project_eq_dec q p); by rewrite IH.
    + destruct (project_eq_dec q p) as [->|]; [congruence | done].
Qed.

Lemma filter_projects_code_analysis_witness :
  test_tool ∈ filter_projects [test_tool; test_doc] "code_analysis" /\
  count_occ project_eq_dec (filter_projects [test_tool; test_doc] "code_analysis") test_tool =
  count_occ project_eq_dec [test_tool; test_doc] test_tool.
Proof.
  assert (H : code_analysis_match test_tool).
  { split; [reflexivity|]. exists "code". split; [set_solver|].
    exists "test tool a ", " analysis tool  tool". reflexivity. }
  split.
  - apply (proj1 (proj2 (filter_projects_code_analysis [test_tool; test_doc]))).
    split; [set_solver | exact H].
  - apply (proj2 (proj2 (filter_projects_code_analysis [test_tool; test_doc]))). exact H.
Defined.

Example filter_tool_projects :
  filter_projects [test_tool; test_doc] "code_analysis" = [test_tool].
Proof. vm_compute. reflexivity. Qed.

Example filter_documentation_projects :
  filter_projects [test_standard; test_testing_tool] "standards" = [test_standard].
Proof. vm_compute. reflexivity. Qed.

(** [test_filter_returns_empty_for_unknown_category]: on an unknown tag the
    copy in the tests answers the empty list, the worker's method the whole
    list. *)
Example filter_unknown_category :
  test_bot_filter_projects [test_tool] "unknown_category" = [] /\
  filter_projects [test_tool] "unknown_category" = [test_tool].
Proof. split; reflexivity. Qed.

Example level_emoji :
  get_level_emoji 4 = "🏆" /\ get_level_emoji 0 = "📦" /\ get_level_emoji 5 = "📦".
Proof. repeat split. Qed.

(** ** The catalog cache *)

Ltac run_monad :=
  unfold mbind, M_bind, mret, M_ret, lift, raise, try_catch, time_time,
    kv_get, set_kv, kv_put_conversation, kv_put_projects_cache,
    kv_put_search_stats, send_dm, fetch_owasp_projects in *;
  simpl in *.

(** C3: a cached catalog younger than the TTL is returned as stored and
    the world is left as it was (no fetch, no write); with no cached
    catalog, or one whose age has reached the TTL, the fetcher runs once,
    its result is stored under the time read after the fetch, and is
    returned. *)
Theorem get_cached_projects_ttl (w : World) :
  (forall data, cached w = Some data ->
     clock w - timestamp data < CACHE_TTL_SECONDS ->
     get_cached_projects w = (Ok (projects data), w)) /\
  ((cached w = None \/
    exists data, cached w = Some data /\ CACHE_TTL_SECONDS <= clock w - timestamp data) ->
   get_cached_projects w = (Ok (upstream w), refreshed w) /\
   fetch_count (refreshed w) = S (fetch_count w) /\
   cached (refreshed w) = Some (Catalog (clock (refreshed w)) (upstream w))).
Proof.
  unfold cached, get_cached_projects. split.
  - intros data Hdata Hage. run_monad. rewrite Hdata.
    by rewrite (proj2 (Z.ltb_lt _ _) Hage).
  - intros Hmiss. split; [|split].
    + run_monad. destruct Hmiss as [-> | (data & -> & Hage)]; [done|].
      by rewrite (proj2 (Z.ltb_ge _ _) Hage).
    + done.
    + simpl. unfold CACHE_TTL_SECONDS. case_match; [done | lia].
Qed.

Lemma get_cached_projects_ttl_witness :
  get_cached_projects (cached_world 200) = (Ok [test_tool], cached_world 200) /\
  get_cached_projects (cached_world 86500) =
    (Ok [test_tool; test_doc], refreshed (cached_world 86500)).
Proof.
  split.
  - apply (proj1 (get_cached_projects_ttl (cached_world 200)) (Catalog 100 [test_tool])).
    + reflexivity.
    + reflexivity.
  - apply (proj2 (get_cached_projects_ttl (cached_world 86500))).
    left. reflexivity.
Defined.

(** ** The conversation state store *)

Lemma store_user_selection_run user_id question answer w :
  store_user_selection user_id question answer w =
  match dumped_key question with
  | Ok key => (Ok tt, recorded user_id key answer w)
  | Raise e => (Raise e, w)
  end.
Proof.
  unfold store_user_selection. run_monad. by destruct (dumped_key question).
Qed.

Lemma current_selections_recorded user_id key answer w d :
  0 <= d < 3600 ->
  current_selections user_id (elapse d (recorded user_id key answer w)) =
  <[key := answer]> (current_selections user_id w).
Proof.
  intros Hd. unfold current_selections at 1. simpl.
  rewrite lookup_insert_eq. simpl.
  by rewrite (proj2 (Z.ltb_lt _ _)) by lia.
Qed.

(** Recording the same answer again, before the conversation expires,
    leaves the selections as they are. *)
Lemma store_user_selection_idempotent_within user_id question answer w d :
  0 <= d < 3600 ->
  let w1 := (store_user_selection user_id question answer w).2 in
  let w2 := (store_user_selection user_id question answer (elapse d w1)).2 in
  stored_selections user_id w2 = stored_selections user_id w1.
Proof.
  intros Hd. simpl. rewrite !store_user_selection_run.
  destruct (dumped_key question) as [key|e]; simpl; [|done].
  unfold stored_selections at 1. simpl. rewrite lookup_insert_eq. simpl.
  rewrite current_selections_recorded by done.
  rewrite insert_insert_eq.
  unfold stored_selections. simpl. by rewrite lookup_insert_eq.
Qed.

(** C7: recording an answer is idempotent on the selections map: for any
    user, node key and selection value, and from any state of the store,
    the selections stored after recording the same answer twice are those
    stored after recording it once. *)
Theorem store_user_selection_idempotent (user_id : string) (question answer : json) (w : World) :
  let w1 := (store_user_selection user_id question answer w).2 in
  let w2 := (store_user_selection user_id question answer w1).2 in
  stored_selections user_id w2 = stored_selections user_id w1.
Proof.
  pose proof (store_user_selection_idempotent_within user_id question answer w 0) as H.
  simpl in *. replace (elapse 0 _) with (store_user_selection user_id question answer w).2 in H.
  - apply H. lia.
  - destruct (store_user_selection _ _ _ w).2. unfold elapse. simpl. f_equal. lia.
Qed.

(** Once the conversation has expired, an answer starts from an empty
    selections map. *)
Example selections_after_expiry :
  let w1 := (store_user_selection "U1" (JStr "start") (JStr "tool") (empty_world 0)).2 in
  let w2 := (store_user_selection "U1" (JStr "tool_type") (JStr "auth") (elapse 3600 w1)).2 in
  stored_selections "U1" w2 = Some {["tool_type" := JStr "auth"]}.
Proof. vm_compute. reflexivity. Qed.

Example selections_before_expiry :
  let w1 := (store_user_selection "U1" (JStr "start") (JStr "tool") (empty_world 0)).2 in
  let w2 := (store_user_selection "U1" (JStr "tool_type") (JStr "auth") (elapse 3599 w1)).2 in
  stored_selections "U1" w2 =
  Some (<["tool_type" := JStr "auth"]> {["start" := JStr "tool"]}).
Proof. vm_compute. reflexivity. Qed.

(** ** The flowchart graph *)

Lemma dict_get_elem_of {V} (d : list (string * V)) k v :
  dict_get d k = Some v -> (k, v) ∈ d.
Proof.
  induction d as [|[k' v'] d IH]; simpl; [done|].
  case_decide as Hk.
  - intros [= <-]. subst. left.
  - intros H. right. by apply IH.
Qed.

Lemma flowchart_options_closed key question_data option :
  dict_get FLOWCHART_QUESTIONS key = Some question_data ->
  option ∈ q_options question_data ->
  defined_key (o_next option).
Proof.
  intros Hq Ho. apply dict_get_elem_of in Hq.
  assert (Hall : Forall (fun kq => Forall (fun o => closed_option o = true) (q_options kq.2))
                        FLOWCHART_QUESTIONS).
  { apply Forall_forall. intros kq Hkq. apply Forall_forall. intros o Hin.
    revert o Hin. apply Forall_forall. revert kq Hkq. apply Forall_forall.
    repeat constructor. }
  rewrite Forall_forall in Hall. specialize (Hall _ Hq). simpl in Hall.
  rewrite Forall_forall in Hall. specialize (Hall _ Ho).
  unfold closed_option in Hall. apply orb_true_iff in Hall as [H|H].
  - left. by apply bool_decide_eq_true in H.
  - right. by apply bool_decide_eq_true in H.
Qed.

Lemma find_some_elem_of {A} (f : A -> bool) (l : list A) x :
  List.find f l = Some x -> x ∈ l.
Proof. intros H. apply find_some in H as [H _]. by apply list_elem_of_In. Qed.

(** C8: every option of every node of the flowchart leads to a node or to
    the terminal marker; hence every key reachable from the start is one of
    these, and so is what [resolve] answers. *)
Theorem flowchart_closed :
  (forall key question_data option,
     dict_get FLOWCHART_QUESTIONS key = Some question_data ->
     option ∈ q_options question_data ->
     defined_key (o_next option)) /\
  (forall key, reachable key -> defined_key key) /\
  (forall node_key selection_value next_key,
     reachable node_key ->
     resolve node_key selection_value = Some next_key ->
     defined_key next_key).
Proof.
  split; [exact flowchart_options_closed|]. split.
  - intros key Hr. induction Hr as [|key next_key _ _ (q & o & Hq & Ho & <-)].
    + right. by eexists.
    + by eapply flowchart_options_closed.
  - intros node_key sel next_key _. unfold resolve.
    destruct (dict_get FLOWCHART_QUESTIONS node_key) as [q|] eqn:Hq; simpl; [|done].
    destruct (List.find _ _) as [o|] eqn:Ho; simpl; [|done].
    intros [= <-]. eapply flowchart_options_closed; [done|].
    by eapply find_some_elem_of.
Qed.

Lemma flowchart_closed_witness :
  defined_key "start" /\ defined_key "end".
Proof.
  split.
  - apply (proj2 (proj2 flowchart_closed) "tool_type" "back" "start").
    + apply (reachable_step "start" "tool_type"); [constructor|].
      eexists _, (FlowOption "🛠️ Security Tool" "tool" "tool_type").
      split; [reflexivity|]. split; [left | reflexivity].
    + reflexivity.
  - eapply (proj1 flowchart_closed "tool_type" _
              (FlowOption "🔍 Code Analysis/SAST" "code_analysis" "end")).
    + reflexivity.
    + left.
Defined.

Lemma back_option_next key question_data option :
  dict_get FLOWCHART_QUESTIONS key = Some question_data ->
  option ∈ q_options question_data ->
  o_value option = "back" ->
  o_next option = "start".
Proof.
  intros Hq Ho Hback. apply dict_get_elem_of in Hq.
  assert (Hall : Forall (fun kq => Forall (fun o => back_to_start o = true) (q_options kq.2))
                        FLOWCHART_QUESTIONS) by repeat constructor.
  rewrite Forall_forall in Hall. specialize (Hall _ Hq). simpl in Hall.
  rewrite Forall_forall in Hall. specialize (Hall _ Ho).
  unfold back_to_start in Hall. rewrite (bool_decide_eq_true_2 _ Hback) in Hall.
  by apply bool_decide_eq_true in Hall.
Qed.

Lemma non_start_node_has_back key question_data :
  dict_get FLOWCHART_QUESTIONS key = Some question_data ->
  key <> "start" ->
  exists option, option ∈ q_options question_data /\ o_value option = "back".
Proof.
  intros Hq Hkey. apply dict_get_elem_of in Hq.
  assert (Hall : Forall (fun kq => has_back_option kq = true) FLOWCHART_QUESTIONS)
    by repeat constructor.
  rewrite Forall_forall in Hall. specialize (Hall _ Hq).
  unfold has_back_option in Hall. simpl in Hall.
  rewrite (bool_decide_eq_false_2 _ Hkey) in Hall. simpl in Hall.
  apply existsb_exists in Hall as (o & Ho & Hv).
  exists o. split; [by apply list_elem_of_In | by apply bool_decide_eq_true in Hv].
Qed.

(** ** Flowchart actions *)

Lemma dumped_key_raises k e : dumped_key k = Raise e -> e = TypeError.
Proof. destruct k as [|[]| | | |]; simpl; congruence. Qed.

Lemma send_flowchart_question_unknown user_id key w :
  dict_get FLOWCHART_QUESTIONS key = None ->
  send_flowchart_question user_id key w = (Ok tt, w).
Proof. intros H. unfold send_flowchart_question. by rewrite H. Qed.

Lemma flowchart_action_id action_id :
  PyStr.startswith action_id "flowchart_" = true ->
  action_id <> "start_flowchart" /\ action_id <> "learn_more" /\ action_id <> "start_over".
Proof. intros H. repeat split; intros ->; discriminate H. Qed.

(** The handler on a decoded button value whose fields are [current],
    [selected] and a string [next]. *)
Lemma handle_flowchart_action_run json_loads user_id action_id value fields next_key w :
  PyStr.startswith action_id "flowchart_" = true ->
  json_loads value = Some (JObj fields) ->
  dict_get fields "next" = Some (JStr next_key) ->
  handle_flowchart_action json_loads user_id action_id value w =
  try_catch
    (store_user_selection user_id (default JNull (dict_get fields "current"))
                          (default JNull (dict_get fields "selected"));;
     if decide (next_key = "end")
     then show_matching_projects user_id (default JNull (dict_get fields "selected"))
     else send_flowchart_question user_id next_key)
    JSONDecodeError (start_conversation user_id) w.
Proof.
  intros Hid Hloads Hnext. unfold handle_flowchart_action.
  destruct (flowchart_action_id _ Hid) as (H1 & H2 & H3).
  rewrite !decide_False by done. rewrite Hid, Hloads.
  unfold try_catch, mbind, M_bind, lift. simpl. by rewrite Hnext.
Qed.

(** C6, as the code has it: a key that is no node of the flowchart (and is
    not the terminal marker) makes [send_flowchart_question] return without
    a message and without an exception, and [handle_flowchart_action] does
    what [store_user_selection] does and no more: nothing is sent and the
    conversation is not set back to the start node; when the node key of
    the button can be the key of a dict, the selection is recorded under
    it and the handler returns without an exception. *)
Theorem unknown_node_is_ignored (json_loads : string -> option json)
    (user_id action_id value : string) (fields : list (string * json))
    (key : string) (w : World) :
  dict_get FLOWCHART_QUESTIONS key = None ->
  key <> "end" ->
  PyStr.startswith action_id "flowchart_" = true ->
  json_loads value = Some (JObj fields) ->
  dict_get fields "next" = Some (JStr key) ->
  send_flowchart_question user_id key w = (Ok tt, w) /\
  handle_flowchart_action json_loads user_id action_id value w =
    store_user_selection user_id (default JNull (dict_get fields "current"))
                         (default JNull (dict_get fields "selected")) w /\
  outbox (handle_flowchart_action json_loads user_id action_id value w).2 = outbox w /\
  (forall current_key,
     dumped_key (default JNull (dict_get fields "current")) = Ok current_key ->
     handle_flowchart_action json_loads user_id action_id value w =
       (Ok tt, recorded user_id current_key (default JNull (dict_get fields "selected")) w)).
Proof.
  intros Hkey Hend Hid Hloads Hnext.
  set (current := default JNull (dict_get fields "current")).
  set (selected := default JNull (dict_get fields "selected")).
  assert (Hrun : handle_flowchart_action json_loads user_id action_id value w =
                 store_user_selection user_id current selected w).
  { erewrite handle_flowchart_action_run by done.
    rewrite decide_False by done.
    unfold try_catch, mbind, M_bind. fold current selected.
    rewrite store_user_selection_run.
    destruct (dumped_key current) as [k|e] eqn:Hk; simpl.
    - by rewrite send_flowchart_question_unknown.
    - by rewrite (dumped_key_raises _ _ Hk). }
  split; [by apply send_flowchart_question_unknown|].
  split; [done|]. split.
  - rewrite Hrun, store_user_selection_run. by destruct (dumped_key current).
  - intros current_key Hcurrent. by rewrite Hrun, store_user_selection_run, Hcurrent.
Qed.

Lemma unknown_node_is_ignored_witness :
  send_flowchart_question "U1" "nowhere" (empty_world 0) = (Ok tt, empty_world 0) /\
  handle_flowchart_action stray_loads "U1" "flowchart_start_tool"
    (json_dumps stray_payload) (empty_world 0) =
    store_user_selection "U1" (JStr "start") (JStr "tool") (empty_world 0) /\
  outbox (handle_flowchart_action stray_loads "U1" "flowchart_start_tool"
            (json_dumps stray_payload) (empty_world 0)).2 = outbox (empty_world 0) /\
  handle_flowchart_action stray_loads "U1" "flowchart_start_tool"
    (json_dumps stray_payload) (empty_world 0) =
    (Ok tt, recorded "U1" "start" (JStr "tool") (empty_world 0)).
Proof.
  destruct (unknown_node_is_ignored stray_loads "U1" "flowchart_start_tool"
              (json_dumps stray_payload)
              [("current", JStr "start"); ("selected", JStr "tool"); ("next", JStr "nowhere")]
              "nowhere" (empty_world 0)) as (H1 & H2 & H3 & H4).
  - reflexivity.
  - discriminate.
  - reflexivity.
  - vm_compute. reflexivity.
  - reflexivity.
  - split; [exact H1|]. split; [exact H2|]. split; [exact H3|].
    apply (H4 "start"). reflexivity.
Defined.

(** C6 fails on the code: for the key "nowhere", which is no node,
    [send_flowchart_question] returns normally and leaves the world as it
    is, and after [handle_flowchart_action] nothing was sent, whereas a
    reset to the start node sends the start question. *)
Lemma unknown_node_counterexample :
  dict_get FLOWCHART_QUESTIONS "nowhere" = None /\
  send_flowchart_question "U1" "nowhere" (empty_world 0) = (Ok tt, empty_world 0) /\
  (handle_flowchart_action stray_loads "U1" "flowchart_start_tool"
     (json_dumps stray_payload) (empty_world 0)).1 = Ok tt /\
  outbox (handle_flowchart_action stray_loads "U1" "flowchart_start_tool"
            (json_dumps stray_payload) (empty_world 0)).2 = [] /\
  outbox (start_conversation "U1" (empty_world 0)).2 <> [].
Proof. vm_compute. repeat split; discriminate. Qed.

(** C10: every node but the start has a "Go Back" option, and choosing it
    is recorded like any answer: the handler first stores "back" under the
    node's key in the user's selections, keeping the other selections, and
    then sends the start question; what was stored before the node was
    visited is not restored. *)
Theorem go_back_is_recorded (json_loads : string -> option json)
    (user_id key : string) (question_data : flow_question) (w : World) :
  dict_get FLOWCHART_QUESTIONS key = Some question_data ->
  key <> "start" ->
  (exists option, option ∈ q_options question_data /\ o_value option = "back") /\
  (forall option action_id value,
     option ∈ q_options question_data ->
     o_value option = "back" ->
     PyStr.startswith action_id "flowchart_" = true ->
     json_loads value = Some (button_payload key option) ->
     let w' := (handle_flowchart_action json_loads user_id action_id value w).2 in
     handle_flowchart_action json_loads user_id action_id value w =
       start_conversation user_id (recorded user_id key (JStr "back") w) /\
     stored_selections user_id w' =
       Some (<[key := JStr "back"]> (current_selections user_id w)) /\
     (exists blocks,
        outbox w' = outbox w ++
          [Dm user_id blocks "What type of OWASP resource are you looking for?"])).
Proof.
  intros Hq Hkey. split; [by eapply non_start_node_has_back|].
  intros option action_id value Ho Hback Hid Hloads.
  pose proof (back_option_next _ _ _ Hq Ho Hback) as Hnext.
  assert (Hrun : handle_flowchart_action json_loads user_id action_id value w =
                 start_conversation user_id (recorded user_id key (JStr "back") w)).
  { unfold button_payload in Hloads. rewrite Hback, Hnext in Hloads.
    erewrite handle_flowchart_action_run by (done || reflexivity). simpl.
    unfold try_catch, mbind, M_bind. by rewrite store_user_selection_run. }
  simpl. rewrite Hrun. split; [done|]. split.
  - unfold stored_selections. simpl. by rewrite lookup_insert_eq.
  - eexists. reflexivity.
Qed.

Lemma go_back_is_recorded_witness :
  stored_selections "U1"
    (handle_flowchart_action (loads_table [(json_dumps back_payload, back_payload)])
       "U1" "flowchart_tool_type_back" (json_dumps back_payload) (empty_world 0)).2 =
  Some (<["tool_type" := JStr "back"]> (current_selections "U1" (empty_world 0))).
Proof.
  refine (proj1 (proj2 (proj2 (go_back_is_recorded
    (loads_table [(json_dumps back_payload, back_payload)])
    "U1" "tool_type"
    (FlowQuestion "What kind of security tool are you looking for?"
      [ FlowOption "🔍 Code Analysis/SAST" "code_analysis" "end";
        FlowOption "🌐 Web Application Testing" "web_testing" "end";
        FlowOption "🔐 Authentication/Authorization" "auth" "end";
        FlowOption "📊 Security Monitoring" "monitoring" "end";
        FlowOption "🔙 Go Back" "back" "start" ])
    (empty_world 0) _ _)
    (FlowOption "🔙 Go Back" "back" "start")
    "flowchart_tool_type_back" (json_dumps back_payload) _ _ _ _))).
  - reflexivity.
  - discriminate.
  - do 4 right. left.
  - reflexivity.
  - reflexivity.
  - vm_compute. reflexivity.
Defined.

Example button_value :
  json_dumps (button_payload "tool_type" (FlowOption "🔙 Go Back" "back" "start")) =
  "{" +:+ json_quote "current" +:+ ": " +:+ json_quote "tool_type" +:+ ", " +:+
  json_quote "selected" +:+ ": " +:+ json_quote "back" +:+ ", " +:+
  json_quote "next" +:+ ": " +:+ json_quote "start" +:+ "}".
Proof. reflexivity. Qed.

(** The walk of the specification: the user picks "code_analysis" on the
    node "tool_type"; the answer is stored, the matcher runs on the cached
    catalog, one message goes out and the search is counted. *)
Example code_analysis_search :
  let w := (handle_flowchart_action
              (loads_table [(json_dumps code_analysis_payload, code_analysis_payload)])
              "U1" "flowchart_tool_type_code_analysis" (json_dumps code_analysis_payload)
              (cached_world 200)) in
  w.1 = Ok tt /\
  stored_selections "U1" w.2 = Some {["tool_type" := JStr "code_analysis"]} /\
  outbox w.2 = [Dm "U1" (matching_blocks [test_tool]) "Project search results"] /\
  (doc <$> search_stats (SLACK_BOT_KV w.2)) = Some (Stats 1 {["code_analysis" := 1]} 200) /\
  fetch_count w.2 = 0%nat.
Proof. vm_compute. repeat split. Qed.

(** * Part III: further properties of the code *)

(** ** More on the project matcher *)

Lemma filter_step_matches category acc p :
  filter_step category (default [] (dict_get category_mappings category)) acc p =
  if matches category p then acc ++ [p] else acc.
Proof.
  unfold filter_step, matches, type_compatible.
  repeat case_decide; rewrite ?append_on_keyword_spec;
    repeat match goal with
           | H : _ = _ |- _ => rewrite (bool_decide_eq_true_2 _ H)
           | H : _ <> _ |- _ => rewrite (bool_decide_eq_false_2 _ H)
           | H : _ ∈ _ |- context [bool_decide (?x ∈ ?l)] => rewrite (bool_decide_eq_true_2 (x ∈ l) H)
           | H : ¬ _ ∈ _ |- context [bool_decide (?x ∈ ?l)] => rewrite (bool_decide_eq_false_2 (x ∈ l) H)
           end; done.
Qed.

Lemma known_tag_has_keywords category keywords :
  dict_get category_mappings category = Some keywords -> keywords <> [].
Proof.
  intros H. apply dict_get_elem_of in H.
  assert (Hall : Forall (fun ck => ck.2 <> []) category_mappings)
    by (repeat constructor; discriminate).
  rewrite Forall_forall in Hall. exact (Hall _ H).
Qed.

(** On a tag of the mapping the matcher is the filter by [matches]. *)
Lemma filter_projects_known projects category keywords :
  dict_get category_mappings category = Some keywords ->
  filter_projects projects category = List.filter (matches category) projects.
Proof.
  intros H. pose proof (known_tag_has_keywords _ _ H) as Hne.
  unfold filter_projects.
  assert (Hfold : forall acc,
    fold_left (filter_step category (default [] (dict_get category_mappings category)))
              projects acc = acc ++ List.filter (matches category) projects).
  { induction projects as [|p ps IH]; intros acc; simpl.
    - by rewrite app_nil_r.
    - rewrite filter_step_matches, IH.
      destruct (matches category p); [by rewrite <- app_assoc | done]. }
  rewrite H in *. simpl in *. destruct keywords; [done|]. apply Hfold.
Qed.

Lemma filter_projects_no_entry projects category :
  dict_get category_mappings category = None -> filter_projects projects category = projects.
Proof. intros H. unfold filter_projects. by rewrite H. Qed.

Lemma filter_projects_cases projects category :
  filter_projects projects category = projects \/
  filter_projects projects category = List.filter (matches category) projects.
Proof.
  destruct (dict_get category_mappings category) as [kws|] eqn:H.
  - right. by eapply filter_projects_known.
  - left. by apply filter_projects_no_entry.
Qed.

(** X1: whatever the tag, the matcher returns some of the projects it was
    given, in their order: it invents none and reorders none. *)
Theorem filter_projects_sublist (projects : list project) (category : string) :
  filter_projects projects category `sublist_of` projects.
Proof.
  destruct (filter_projects_cases projects category) as [-> | ->].
  - done.
  - apply sublist_filter.
Qed.

(** X2: the matcher works project by project: the result for two catalogs put
    one after the other is the two results put one after the other. *)
Theorem filter_projects_app (projects1 projects2 : list project) (category : string) :
  filter_projects (projects1 ++ projects2) category =
  filter_projects projects1 category ++ filter_projects projects2 category.
Proof.
  destruct (dict_get category_mappings category) as [kws|] eqn:H.
  - rewrite !(filter_projects_known _ _ _ H). apply List.filter_app.
  - by rewrite !(filter_projects_no_entry _ _ H).
Qed.

Lemma filter_filter_same {A} (f : A -> bool) (l : list A) :
  List.filter f (List.filter f l) = List.filter f l.
Proof.
  induction l as [|x l IH]; simpl; [done|].
  destruct (f x) eqn:E; simpl; [by rewrite E, IH | done].
Qed.

(** X3: filtering the result again with the same tag changes nothing. *)
Theorem filter_projects_idempotent (projects : list project) (category : string) :
  filter_projects (filter_projects projects category) category =
  filter_projects projects category.
Proof.
  destruct (dict_get category_mappings category) as [kws|] eqn:H.
  - rewrite !(filter_projects_known _ _ _ H). apply filter_filter_same.
  - by rewrite !(filter_projects_no_entry _ _ H).
Qed.

(** X4: what a returned project looks like, by family of the tag: a tool tag
    returns only projects of type "tool", a documentation tag only types
    "documentation" and "standard", a vulnerable-application tag only types
    "tool" and "code"; and for every tag of the mapping a returned project
    holds one of the tag's keywords in its searchable text. *)
Theorem filter_projects_family (projects : list project) (category : string)
    (keywords : list string) (p : project) :
  dict_get category_mappings category = Some keywords ->
  p ∈ filter_projects projects category ->
  (exists kw, kw ∈ keywords /\ exists pre post, searchable p = pre +:+ kw +:+ post) /\
  (category ∈ ["code_analysis"; "web_testing"; "auth"; "monitoring"] ->
   project_type p = "tool") /\
  (category ∈ ["standards"; "secure_dev"; "testing_guide"; "cheatsheet"] ->
   project_type p ∈ ["documentation"; "standard"]) /\
  (category ∈ ["vuln_web"; "vuln_mobile"; "vuln_api"] ->
   project_type p ∈ ["tool"; "code"]).
Proof.
  intros H Hp. rewrite (filter_projects_known _ _ _ H) in Hp.
  apply list_elem_of_In, filter_In in Hp as [_ Hm].
  unfold matches in Hm. rewrite H in Hm. simpl in Hm.
  apply andb_true_iff in Hm as [Ht Hk].
  split; [by apply existsb_contains|].
  unfold type_compatible in Ht.
  assert (Hdisjoint : forall l1 l2 : list string,
            category ∈ l1 -> category ∈ l2 ->
            forallb (fun x => negb (bool_decide (x ∈ l2))) l1 = true -> False).
  { intros l1 l2 H1 H2 Hall. rewrite forallb_forall in Hall.
    apply list_elem_of_In, Hall, negb_true_iff, bool_decide_eq_false in H1. done. }
  repeat split; intros Hc; repeat case_decide;
    first [ by apply bool_decide_eq_true in Ht
          | contradiction
          | match goal with
            | Ha : category ∈ ?l1, Hb : category ∈ ?l2 |- _ =>
                exfalso; apply (Hdisjoint l1 l2 Ha Hb); reflexivity
            end ].
Qed.

Lemma filter_projects_family_witness :
  project_type test_tool = "tool".
Proof.
  refine (proj1 (proj2 (filter_projects_family [test_tool; test_doc] "code_analysis"
            ["sast"; "code"; "analysis"; "dependency"; "scanner"] test_tool _ _)) _).
  - reflexivity.
  - vm_compute. left.
  - left.
Defined.

(** X5: the copy of the matcher in the tests and the worker's method agree on
    every tag of the mapping; they differ on the other tags only, where the
    copy answers the empty list. *)
Theorem test_bot_filter_projects_agrees (projects : list project) (category : string) :
  (is_Some (dict_get category_mappings category) ->
   test_bot_filter_projects projects category = filter_projects projects category) /\
  (dict_get category_mappings category = None ->
   test_bot_filter_projects projects category = []).
Proof.
  unfold test_bot_filter_projects, filter_projects. split.
  - intros [kws H]. pose proof (known_tag_has_keywords _ _ H). rewrite H. simpl.
    by destruct kws.
  - by intros ->.
Qed.

Lemma test_bot_filter_projects_agrees_witness :
  test_bot_filter_projects [test_tool; test_doc] "code_analysis" =
    filter_projects [test_tool; test_doc] "code_analysis" /\
  test_bot_filter_projects [test_tool] "unknown_category" = [].
Proof.
  split.
  - apply (proj1 (test_bot_filter_projects_agrees [test_tool; test_doc] "code_analysis")).
    by eexists.
  - apply (proj2 (test_bot_filter_projects_agrees [test_tool] "unknown_category")).
    reflexivity.
Defined.

(** ** The flowchart and the mapping of the matcher *)

Lemma terminal_values_spec value :
  value ∈ terminal_values <->
  exists key question_data option,
    dict_get FLOWCHART_QUESTIONS key = Some question_data /\
    option ∈ q_options question_data /\
    o_next option = "end" /\ o_value option = value.
Proof.
  split.
  - intros H. apply list_elem_of_In, in_flat_map in H as ([key q] & Hkq & H).
    apply in_map_iff in H as (o & Hv & Ho). apply filter_In in Ho as [Ho Hend].
    apply bool_decide_eq_true in Hend.
    assert (Hget : dict_get FLOWCHART_QUESTIONS key = Some q).
    { apply list_elem_of_In in Hkq. clear -Hkq.
      repeat (apply elem_of_cons in Hkq as [Hkq | Hkq]; [by injection Hkq as -> ->|]).
      by apply elem_of_nil in Hkq. }
    exists key, q, o. repeat split; try done. by apply list_elem_of_In.
  - intros (key & q & o & Hq & Ho & Hend & <-).
    apply list_elem_of_In, in_flat_map. exists (key, q).
    split; [by apply list_elem_of_In, dict_get_elem_of|].
    apply in_map, filter_In. split; [by apply list_elem_of_In|].
    by apply bool_decide_eq_true.
Qed.

(** X6: the flowchart and the matcher fit: an option that ends the flowchart
    carries a tag of the mapping, in the family of its node, so that a search
    started from a button never meets the unknown-tag case; and every tag of
    the mapping is offered by some option. *)
Theorem terminal_options_are_tags :
  (forall key question_data option,
     dict_get FLOWCHART_QUESTIONS key = Some question_data ->
     option ∈ q_options question_data ->
     o_next option = "end" ->
     is_Some (dict_get category_mappings (o_value option)) /\
     o_value option ∈ node_family key /\
     forall projects,
       filter_projects projects (o_value option) =
       List.filter (matches (o_value option)) projects) /\
  (forall category,
     is_Some (dict_get category_mappings category) ->
     exists key question_data option,
       dict_get FLOWCHART_QUESTIONS key = Some question_data /\
       option ∈ q_options question_data /\
       o_next option = "end" /\ o_value option = category).
Proof.
  split.
  - intros key q o Hq Ho Hend.
    assert (Hall : Forall (fun kq => Forall (fun o =>
               implb (bool_decide (o_next o = "end"))
                     (bool_decide (is_Some (dict_get category_mappings (o_value o))) &&
                      bool_decide (o_value o ∈ node_family kq.1)) = true)
               (q_options kq.2)) FLOWCHART_QUESTIONS) by repeat constructor.
    apply dict_get_elem_of in Hq.
    rewrite Forall_forall in Hall. specialize (Hall _ Hq). simpl in Hall.
    rewrite Forall_forall in Hall. specialize (Hall _ Ho).
    rewrite (bool_decide_eq_true_2 _ Hend) in Hall. simpl in Hall.
    apply andb_true_iff in Hall as [H1 H2].
    apply bool_decide_eq_true in H1, H2. repeat split; try done.
    intros projects. destruct H1 as [kws H1]. by eapply filter_projects_known.
  - intros category [kws H]. apply terminal_values_spec.
    apply dict_get_elem_of in H.
    assert (Hall : Forall (fun ck => bool_decide (ck.1 ∈ terminal_values) = true)
                          category_mappings) by repeat constructor.
    rewrite Forall_forall in Hall. specialize (Hall _ H).
    by apply bool_decide_eq_true in Hall.
Qed.

Lemma terminal_options_are_tags_witness :
  is_Some (dict_get category_mappings "code_analysis") /\
  exists key question_data option,
    dict_get FLOWCHART_QUESTIONS key = Some question_data /\
    option ∈ q_options question_data /\
    o_next option = "end" /\ o_value option = "vuln_api".
Proof.
  split.
  - refine (proj1 (proj1 terminal_options_are_tags "tool_type"
              (FlowQuestion "What kind of security tool are you looking for?"
                [ FlowOption "🔍 Code Analysis/SAST" "code_analysis" "end";
                  FlowOption "🌐 Web Application Testing" "web_testing" "end";
                  FlowOption "🔐 Authentication/Authorization" "auth" "end";
                  FlowOption "📊 Security Monitoring" "monitoring" "end";
                  FlowOption "🔙 Go Back" "back" "start" ])
              (FlowOption "🔍 Code Analysis/SAST" "code_analysis" "end") _ _ _)).
    + reflexivity.
    + left.
    + reflexivity.
  - apply (proj2 terminal_options_are_tags "vuln_api"). by eexists.
Defined.

(** ** Methods and the properties they keep *)

Section Preserves.

Context {P : World -> Prop}.

Lemma preserves_ret {A} (a : A) : preserves P (mret a).
Proof. by intros w. Qed.

Lemma preserves_bind {A B} (m : M A) (k : A -> M B) :
  preserves P m -> (forall a, preserves P (k a)) -> preserves P (m ≫= k).
Proof.
  intros Hm Hk w Hw. unfold mbind, M_bind.
  specialize (Hm w Hw). destruct (m w) as [[a|e] w']; simpl in *; [|done].
  by apply Hk.
Qed.

Lemma preserves_lift {A} (r : result A) : preserves P (lift r).
Proof. by intros w. Qed.

Lemma preserves_raise {A} (e : exn) : preserves P (@raise A e).
Proof. by intros w. Qed.

Lemma preserves_try_catch {A} (m h : M A) (e : exn) :
  preserves P m -> preserves P h -> preserves P (try_catch m e h).
Proof.
  intros Hm Hh w Hw. unfold try_catch.
  specialize (Hm w Hw). destruct (m w) as [[a|e'] w']; simpl in *; [done|].
  case_decide; [by apply Hh | done].
Qed.

Lemma preserves_time_time : preserves P time_time.
Proof. by intros w. Qed.

Lemma preserves_kv_get {A} (slot : kv -> option (entry A)) : preserves P (kv_get slot).
Proof. by intros w. Qed.

End Preserves.

(** A method built from binds, branches and the basic operations keeps a
    property that each basic operation keeps. *)
Ltac preserves_basic :=
  let w := fresh "w" in let Hw := fresh "Hw" in
  intros w Hw;
  unfold send_dm, fetch_owasp_projects, kv_put_conversation, kv_put_projects_cache,
    kv_put_search_stats, set_kv, time_time, mbind, M_bind in *;
  simpl in *.

Ltac preserves_steps :=
  repeat first
    [ match goal with H : _ |- preserves _ _ => apply H end
    | apply preserves_ret | apply preserves_lift | apply preserves_raise
    | apply preserves_time_time | apply preserves_kv_get
    | apply preserves_bind; [|intros ?]
    | apply preserves_try_catch
    | progress case_decide
    | progress case_match ].

Section Methods.

Context (P : World -> Prop).
Context (P_send_dm : forall user_id blocks text, preserves P (send_dm user_id blocks text)).

Lemma preserves_send_flowchart_question user_id key :
  preserves P (send_flowchart_question user_id key).
Proof. unfold send_flowchart_question. preserves_steps. Qed.

(** The cache and the statistics: a property kept by the fetcher and by
    every write is kept by the methods that read and write them. *)
Lemma preserves_get_cached_projects_any :
  preserves P fetch_owasp_projects ->
  (forall data ttl, preserves P (kv_put_projects_cache data ttl)) ->
  preserves P get_cached_projects.
Proof. intros ? ?. unfold get_cached_projects. preserves_steps. Qed.

Lemma preserves_record_search_any user_id category n :
  (forall data, preserves P (kv_put_search_stats data)) ->
  preserves P (record_search user_id category n).
Proof. intros ?. unfold record_search. preserves_steps. Qed.

Lemma preserves_store_user_selection_any user_id question answer :
  (forall state ttl, preserves P (kv_put_conversation user_id state ttl)) ->
  preserves P (store_user_selection user_id question answer).
Proof. intros ?. unfold store_user_selection. preserves_steps. Qed.

Context (P_get_cached_projects : preserves P get_cached_projects).
Context (P_record_search :
  forall user_id category n, preserves P (record_search user_id category n)).

Lemma preserves_show_matching_projects user_id category :
  preserves P (show_matching_projects user_id category).
Proof. unfold show_matching_projects. preserves_steps. Qed.

Context (user_id : string).
Context (P_store_user_selection :
  forall question answer, preserves P (store_user_selection user_id question answer)).

Lemma preserves_handle_flowchart_action json_loads action_id value :
  preserves P (handle_flowchart_action json_loads user_id action_id value).
Proof.
  unfold handle_flowchart_action, start_conversation, send_learn_more.
  repeat case_decide; try apply preserves_send_flowchart_question; try apply P_send_dm.
  destruct (PyStr.startswith action_id "flowchart_"); [|apply preserves_ret].
  apply preserves_try_catch; [|apply preserves_send_flowchart_question].
  apply preserves_bind; [apply preserves_lift | intros data].
  apply preserves_bind; [apply preserves_lift | intros selected].
  apply preserves_bind; [apply preserves_lift | intros next_step].
  apply preserves_bind; [apply preserves_lift | intros current].
  apply preserves_bind; [apply P_store_user_selection | intros _].
  destruct next_step; try apply preserves_ret; try apply preserves_raise.
  case_decide; [apply preserves_show_matching_projects
               | apply preserves_send_flowchart_question].
Qed.

End Methods.

(** ** Conversations are kept apart *)

(** X7: however a flowchart action of one user ends, the stored conversation
    of every other user is what it was. *)
Theorem handle_flowchart_action_isolation (json_loads : string -> option json)
    (user_id action_id value other : string) (w : World) :
  other <> user_id ->
  conversations (SLACK_BOT_KV (handle_flowchart_action json_loads user_id action_id value w).2)
    !! other =
  conversations (SLACK_BOT_KV w) !! other.
Proof.
  intros Hne.
  set (P := fun w' : World =>
              conversations (SLACK_BOT_KV w') !! other = conversations (SLACK_BOT_KV w) !! other).
  assert (Hsend : forall u b t, preserves P (send_dm u b t)) by (intros; by preserves_basic).
  apply (preserves_handle_flowchart_action P); try done.
  - apply preserves_get_cached_projects_any; intros; by preserves_basic.
  - intros. apply preserves_record_search_any; intros; by preserves_basic.
  - intros. apply preserves_store_user_selection_any. intros.
    preserves_basic. unfold P in *. simpl. by rewrite lookup_insert_ne.
Qed.

Lemma handle_flowchart_action_isolation_witness :
  conversations
    (SLACK_BOT_KV (handle_flowchart_action stray_loads "U1" "flowchart_start_tool"
                     (json_dumps stray_payload) (empty_world 0)).2) !! "U2" =
  conversations (SLACK_BOT_KV (empty_world 0)) !! "U2".
Proof. apply handle_flowchart_action_isolation. discriminate. Defined.

(** ** More on the catalog cache *)

Lemma get_cached_projects_hit w data :
  cached w = Some data -> clock w - timestamp data < CACHE_TTL_SECONDS ->
  get_cached_projects w = (Ok (projects data), w).
Proof.
  unfold cached, get_cached_projects. intros Hdata Hage. run_monad. rewrite Hdata.
  by rewrite (proj2 (Z.ltb_lt _ _) Hage).
Qed.

Lemma get_cached_projects_miss w :
  cached w = None \/
  (exists data, cached w = Some data /\ CACHE_TTL_SECONDS <= clock w - timestamp data) ->
  get_cached_projects w = (Ok (upstream w), refreshed w).
Proof.
  unfold cached, get_cached_projects. intros Hmiss. run_monad.
  destruct Hmiss as [-> | (data & -> & Hage)]; [done|].
  by rewrite (proj2 (Z.ltb_ge _ _) Hage).
Qed.

Lemma get_cached_projects_outcome w :
  (get_cached_projects w = (Ok (upstream w), refreshed w) \/
   exists data, cached w = Some data /\ clock w - timestamp data < CACHE_TTL_SECONDS /\
                get_cached_projects w = (Ok (projects data), w)).
Proof.
  destruct (cached w) as [data|] eqn:Hc.
  - destruct (Z.lt_ge_cases (clock w - timestamp data) CACHE_TTL_SECONDS) as [Hlt|Hge].
    + right. exists data. repeat split; try done. by apply get_cached_projects_hit.
    + left. apply get_cached_projects_miss. right. by exists data.
  - left. apply get_cached_projects_miss. by left.
Qed.

Lemma refresh_project_cache_run w : refresh_project_cache w = (Ok tt, refreshed w).
Proof. unfold refresh_project_cache. by run_monad. Qed.

Lemma cached_refreshed w d :
  0 <= d < CACHE_TTL_SECONDS ->
  cached (elapse d (refreshed w)) = Some (Catalog (clock w + fetch_seconds w) (upstream w)).
Proof.
  intros Hd. unfold cached. simpl.
  by rewrite (proj2 (Z.ltb_lt _ _)) by lia.
Qed.

(** X8: after a refresh, scheduled or on a miss, every read during the next 24
    hours is served from the cache: the same projects, no fetch, the world
    left as it is; at 24 hours the store has dropped the entry and a read
    fetches again. *)
Theorem one_fetch_per_ttl (w : World) (d : Z) :
  0 <= d ->
  refresh_project_cache w = (Ok tt, refreshed w) /\
  (d < CACHE_TTL_SECONDS ->
   get_cached_projects (elapse d (refreshed w)) =
     (Ok (upstream w), elapse d (refreshed w))) /\
  (CACHE_TTL_SECONDS <= d ->
   fetch_count (get_cached_projects (elapse d (refreshed w))).2 =
     S (fetch_count (refreshed w))).
Proof.
  intros Hd. split; [apply refresh_project_cache_run|]. split.
  - intros Hlt.
    rewrite (get_cached_projects_hit _ (Catalog (clock w + fetch_seconds w) (upstream w))).
    + done.
    + by apply cached_refreshed.
    + simpl. lia.
  - intros Hge. rewrite get_cached_projects_miss; [done|].
    left. unfold cached. simpl. by rewrite (proj2 (Z.ltb_ge _ _)) by lia.
Qed.

Lemma one_fetch_per_ttl_witness :
  get_cached_projects (elapse 3600 (refreshed (cached_world 200))) =
    (Ok [test_tool; test_doc], elapse 3600 (refreshed (cached_world 200))).
Proof.
  refine (proj1 (proj2 (one_fetch_per_ttl (cached_world 200) 3600 _)) _).
  - discriminate.
  - reflexivity.
Defined.

(** X9: every write of the worker keeps the cache entry consistent: it expires
    exactly when its catalog reaches the TTL. With such a cache, a catalog
    that the store still returns is always fresh, so a read fetches only
    when the store returns nothing. *)
Theorem cache_stays_consistent (json_loads : string -> option json)
    (user_id action_id value : string) (w : World) (d : Z) :
  cache_consistent w ->
  cache_consistent (handle_flowchart_action json_loads user_id action_id value w).2 /\
  cache_consistent (refresh_project_cache w).2 /\
  cache_consistent (elapse d w) /\
  (forall data, cached w = Some data ->
     get_cached_projects w = (Ok (projects data), w)).
Proof.
  intros Hw.
  assert (Hsend : forall u b t, preserves cache_consistent (send_dm u b t))
    by (intros; by preserves_basic).
  assert (Hget : preserves cache_consistent get_cached_projects).
  { intros w0 Hw0. destruct (get_cached_projects_outcome w0) as [E | (data & _ & _ & E)];
      rewrite E; [|done]. unfold cache_consistent. simpl. done. }
  split; [|split; [|split]].
  - apply (preserves_handle_flowchart_action cache_consistent); try done.
    + intros. apply preserves_record_search_any. intros; by preserves_basic.
    + intros. apply preserves_store_user_selection_any. intros; by preserves_basic.
  - by rewrite refresh_project_cache_run.
  - done.
  - intros data Hdata. apply get_cached_projects_hit; [done|].
    unfold cache_consistent, cached in *.
    destruct (projects_cache (SLACK_BOT_KV w)) as [[data' e]|]; [|done].
    simpl in *. subst e. simpl in Hdata.
    destruct (clock w <? timestamp data' + CACHE_TTL_SECONDS) eqn:E; [|done].
    injection Hdata as <-. apply Z.ltb_lt in E. lia.
Qed.

Lemma cache_stays_consistent_witness :
  get_cached_projects (cached_world 200) = (Ok [test_tool], cached_world 200).
Proof.
  refine (proj2 (proj2 (proj2 (cache_stays_consistent stray_loads "U1" "start_over" ""
            (cached_world 200) 0 _))) (Catalog 100 [test_tool]) _).
  - reflexivity.
  - reflexivity.
Defined.

(** ** The search statistics *)

Lemma sum_counts_insert_fresh (m : gmap string Z) k v :
  m !! k = None -> sum_counts (<[k := v]> m) = v + sum_counts m.
Proof.
  intros H. unfold sum_counts. rewrite map_fold_insert_L; [done| |done].
  intros. lia.
Qed.

Lemma sum_counts_insert (m : gmap string Z) k v :
  sum_counts (<[k := v]> m) = sum_counts m - default 0 (m !! k) + v.
Proof.
  destruct (m !! k) as [old|] eqn:H; simpl.
  - rewrite <- (insert_delete_eq m k v).
    rewrite <- (insert_delete_id m k old H) at 2.
    rewrite !sum_counts_insert_fresh by apply lookup_delete_eq. lia.
  - rewrite sum_counts_insert_fresh by done. lia.
Qed.

(** The world after a search for a tag was counted. *)
Lemma record_search_run user_id category n w :
  record_search user_id (JStr category) n w =
  (Ok tt,
   MkWorld
     (Kv (conversations (SLACK_BOT_KV w)) (projects_cache (SLACK_BOT_KV w))
         (Some (Entry (Stats (searches w + 1)
                             (<[category := searches_of category w + 1]>
                                (default ∅ (categories <$> current_stats w)))
                             (clock w))
                      None)))
     (clock w) (outbox w) (upstream w) (fetch_seconds w) (fetch_count w)).
Proof.
  unfold record_search, searches, searches_of, current_stats. run_monad.
  by destruct (live (clock w) (search_stats (SLACK_BOT_KV w))).
Qed.

(** X10: counting a search adds one to the total and one to the counter of its
    tag, which starts at zero, and leaves the other counters as they are;
    the record is written without expiration, so the counts are there after
    any delay. *)
Theorem record_search_counts (user_id category : string) (n : nat) (w : World)
    (d : Z) (other : string) :
  other <> category ->
  let w' := elapse d (record_search user_id (JStr category) n w).2 in
  (record_search user_id (JStr category) n w).1 = Ok tt /\
  searches w' = searches w + 1 /\
  searches_of category w' = searches_of category w + 1 /\
  searches_of other w' = searches_of other w.
Proof.
  intros Hne. rewrite record_search_run. simpl.
  split; [done|]. split; [reflexivity|]. split.
  - unfold searches_of at 1. unfold current_stats at 1. simpl.
    by rewrite lookup_insert_eq.
  - unfold searches_of at 1. unfold current_stats at 1. simpl.
    rewrite lookup_insert_ne by done. unfold searches_of.
    by destruct (current_stats w).
Qed.

Lemma record_search_counts_witness :
  searches (elapse 1000000 (record_search "U1" (JStr "auth") 0 (empty_world 0)).2) =
  searches (empty_world 0) + 1.
Proof.
  refine (proj1 (proj2 (record_search_counts "U1" "auth" 0 (empty_world 0) 1000000 "labs" _))).
  discriminate.
Defined.

(** X11: for a search by tag, a total that is the sum of the counters stays
    so. *)
Theorem record_search_balanced (user_id category : string) (n : nat) (w : World) :
  stats_balanced w ->
  stats_balanced (record_search user_id (JStr category) n w).2.
Proof.
  intros Hw. rewrite record_search_run.
  unfold stats_balanced at 1. unfold current_stats at 1. simpl.
  rewrite sum_counts_insert.
  unfold stats_balanced, searches, searches_of in *.
  destruct (current_stats w) as [s|]; simpl in *.
  - rewrite Hw. lia.
  - rewrite lookup_empty. simpl. unfold sum_counts. rewrite map_fold_empty. lia.
Qed.

Lemma record_search_balanced_witness :
  stats_balanced (record_search "U1" (JStr "auth") 0 (empty_world 0)).2.
Proof. apply record_search_balanced. exact I. Defined.

Lemma searches_clock w now :
  stats_permanent w ->
  searches (MkWorld (SLACK_BOT_KV w) now (outbox w) (upstream w) (fetch_seconds w)
                    (fetch_count w)) = searches w.
Proof.
  unfold stats_permanent, searches, current_stats. simpl.
  destruct (search_stats (SLACK_BOT_KV w)) as [[s e]|]; [|done].
  simpl. by intros ->.
Qed.

(** X12: the total of the searches is never reset: with statistics written
    without expiration, as the worker writes them, a flowchart action leaves
    them so and never lowers the total, however it ends; nor does the
    passing of time. *)
Theorem searches_never_decrease (json_loads : string -> option json)
    (user_id action_id value : string) (w : World) (d : Z) :
  stats_permanent w ->
  let w' := (handle_flowchart_action json_loads user_id action_id value w).2 in
  stats_permanent w' /\ searches w <= searches w' /\
  searches (elapse d w) = searches w.
Proof.
  intros Hw. simpl.
  set (P := fun w' : World => stats_permanent w' /\ searches w <= searches w').
  assert (Hclock : forall w0 now, P w0 ->
            P (MkWorld (SLACK_BOT_KV w0) now (outbox w0) (upstream w0) (fetch_seconds w0)
                       (fetch_count w0))).
  { intros w0 now [Hp Hle]. split; [done|]. by rewrite searches_clock. }
  assert (Hsend : forall u b t, preserves P (send_dm u b t))
    by (intros; by preserves_basic).
  assert (HP : P (handle_flowchart_action json_loads user_id action_id value w).2).
  { apply (preserves_handle_flowchart_action P); try done.
    - apply preserves_get_cached_projects_any.
      + intros w0 Hw0. apply (Hclock w0 (clock w0 + fetch_seconds w0)) in Hw0. exact Hw0.
      + intros; by preserves_basic.
    - intros u c n w0 [Hp Hle]. unfold record_search. run_monad.
      destruct (lookup_json _ c) as [count|e]; simpl; [|by split].
      destruct (dumped_key c) as [key|e]; simpl; [|by split].
      split; [done|]. change (searches w <= searches w0 + 1). lia.
    - intros. apply preserves_store_user_selection_any. intros; by preserves_basic. }
  destruct HP as [HP1 HP2]. repeat split; try done.
  by apply searches_clock.
Qed.

Lemma searches_never_decrease_witness :
  searches (empty_world 0) <=
  searches (handle_flowchart_action stray_loads "U1" "flowchart_start_tool"
              (json_dumps stray_payload) (empty_world 0)).2.
Proof.
  refine (proj1 (proj2 (searches_never_decrease stray_loads "U1" "flowchart_start_tool"
            (json_dumps stray_payload) (empty_world 0) 0 _))).
  exact I.
Defined.

(** ** More on the conversation state store *)

(** X13: an answer is added to the selections read from the store, replacing an
    earlier answer to the same node; the conversation then lasts one hour
    from this write, whatever its expiry was before, and is gone after
    that. *)
Theorem store_user_selection_sliding (user_id : string) (question answer : json)
    (key : string) (w : World) (d : Z) :
  dumped_key question = Ok key ->
  0 <= d ->
  let w' := (store_user_selection user_id question answer w).2 in
  (store_user_selection user_id question answer w).1 = Ok tt /\
  current_selections user_id (elapse d w') =
    if d <? 3600 then <[key := answer]> (current_selections user_id w) else ∅.
Proof.
  intros Hkey Hd. rewrite store_user_selection_run, Hkey. simpl. split; [done|].
  unfold current_selections at 1. simpl. rewrite lookup_insert_eq. simpl.
  destruct (Z.ltb_spec d 3600) as [Hlt|Hge].
  - by rewrite (proj2 (Z.ltb_lt _ _)) by lia.
  - by rewrite (proj2 (Z.ltb_ge _ _)) by lia.
Qed.

Lemma store_user_selection_sliding_witness :
  current_selections "U1"
    (elapse 3599 (store_user_selection "U1" (JStr "start") (JStr "tool") (empty_world 0)).2) =
  <["start" := JStr "tool"]> (current_selections "U1" (empty_world 0)).
Proof.
  refine (proj2 (store_user_selection_sliding "U1" (JStr "start") (JStr "tool") "start"
            (empty_world 0) 3599 _ _)).
  - reflexivity.
  - discriminate.
Defined.

(** X14: answers to two different nodes can be recorded in either order: the
    stored selections are the same. *)
Theorem store_user_selection_commute (user_id : string) (question1 answer1 question2 answer2 : json)
    (key1 key2 : string) (w : World) :
  dumped_key question1 = Ok key1 ->
  dumped_key question2 = Ok key2 ->
  key1 <> key2 ->
  stored_selections user_id
    (store_user_selection user_id question2 answer2
       (store_user_selection user_id question1 answer1 w).2).2 =
  stored_selections user_id
    (store_user_selection user_id question1 answer1
       (store_user_selection user_id question2 answer2 w).2).2.
Proof.
  intros H1 H2 Hne. rewrite !store_user_selection_run, H1, H2. simpl.
  unfold stored_selections. simpl. rewrite !lookup_insert_eq. simpl. f_equal.
  pose proof (current_selections_recorded user_id key1 answer1 w 0) as E1.
  pose proof (current_selections_recorded user_id key2 answer2 w 0) as E2.
  assert (Hel : forall w0, elapse 0 w0 = w0).
  { intros [? ? ? ? ? ?]. unfold elapse. simpl. f_equal. lia. }
  rewrite Hel in E1, E2. rewrite E1, E2 by lia.
  by apply insert_insert_ne.
Qed.

Lemma store_user_selection_commute_witness :
  stored_selections "U1"
    (store_user_selection "U1" (JStr "tool_type") (JStr "auth")
       (store_user_selection "U1" (JStr "start") (JStr "tool") (empty_world 0)).2).2 =
  stored_selections "U1"
    (store_user_selection "U1" (JStr "start") (JStr "tool")
       (store_user_selection "U1" (JStr "tool_type") (JStr "auth") (empty_world 0)).2).2.
Proof.
  apply (store_user_selection_commute "U1" (JStr "start") (JStr "tool")
           (JStr "tool_type") (JStr "auth") "start" "tool_type" (empty_world 0)).
  - reflexivity.
  - reflexivity.
  - discriminate.
Defined.

(** ** More on the flowchart graph *)

Lemma flowchart_node_cases key question_data :
  dict_get FLOWCHART_QUESTIONS key = Some question_data ->
  key ∈ ["start"; "tool_type"; "doc_type"; "training_type"; "vuln_app_type"].
Proof.
  intros H. apply dict_get_elem_of in H.
  repeat (apply elem_of_cons in H as [H | H];
          [injection H as -> _; repeat first [left | right]|]).
  by apply elem_of_nil in H.
Qed.

Lemma start_edge question_data option :
  dict_get FLOWCHART_QUESTIONS "start" = Some question_data ->
  option ∈ q_options question_data ->
  reachable (o_next option).
Proof.
  intros Hq Ho. eapply reachable_step; [apply reachable_start|].
  by exists question_data, option.
Qed.

(** X15: the flowchart has no orphan: every node can be reached from the start,
    and so can the terminal marker. It has two levels: an option of the
    start node leads to another node, and an option of another node ends
    the flowchart or, when it is the "back" option, leads to the start. *)
Theorem flowchart_shape :
  (forall key question_data,
     dict_get FLOWCHART_QUESTIONS key = Some question_data -> reachable key) /\
  reachable "end" /\
  (forall question_data option,
     dict_get FLOWCHART_QUESTIONS "start" = Some question_data ->
     option ∈ q_options question_data ->
     o_next option <> "start" /\ is_Some (dict_get FLOWCHART_QUESTIONS (o_next option))) /\
  (forall key question_data option,
     dict_get FLOWCHART_QUESTIONS key = Some question_data ->
     key <> "start" ->
     option ∈ q_options question_data ->
     (o_value option <> "back" /\ o_next option = "end") \/
     (o_value option = "back" /\ o_next option = "start")).
Proof.
  assert (Hstart : forall key question_data,
            dict_get FLOWCHART_QUESTIONS "start" = Some question_data ->
            existsb (fun o => bool_decide (o_next o = key)) (q_options question_data) = true ->
            reachable key).
  { intros key q Hq H. apply existsb_exists in H as (o & Ho & Hn).
    apply bool_decide_eq_true in Hn as <-. eapply start_edge; [done|].
    by apply list_elem_of_In. }
  split; [|split; [|split]].
  - intros key q Hq. apply flowchart_node_cases in Hq.
    repeat (apply elem_of_cons in Hq as [-> | Hq];
            [first [apply reachable_start | by eapply Hstart]|]).
    by apply elem_of_nil in Hq.
  - eapply reachable_step; [by eapply (Hstart "tool_type")|].
    eexists _, (FlowOption "🔍 Code Analysis/SAST" "code_analysis" "end").
    split; [reflexivity|]. split; [left | reflexivity].
  - intros q o Hq Ho. injection Hq as <-.
    repeat (apply elem_of_cons in Ho as [-> | Ho]; [split; [discriminate | by eexists]|]).
    by apply elem_of_nil in Ho.
  - intros key q o Hq Hkey Ho. apply dict_get_elem_of in Hq.
    assert (Hall : Forall (fun kq => Forall (fun o =>
               bool_decide (kq.1 = "start") ||
               (negb (bool_decide (o_value o = "back")) && bool_decide (o_next o = "end")) ||
               (bool_decide (o_value o = "back") && bool_decide (o_next o = "start")) = true)
               (q_options kq.2)) FLOWCHART_QUESTIONS) by repeat constructor.
    rewrite Forall_forall in Hall. specialize (Hall _ Hq). simpl in Hall.
    rewrite Forall_forall in Hall. specialize (Hall _ Ho).
    rewrite (bool_decide_eq_false_2 _ Hkey) in Hall. simpl in Hall.
    apply orb_true_iff in Hall as [H|H]; apply andb_true_iff in H as [H1 H2].
    + left. apply negb_true_iff, bool_decide_eq_false in H1.
      by apply bool_decide_eq_true in H2.
    + right. by apply bool_decide_eq_true in H1, H2.
Qed.

Lemma flowchart_shape_witness :
  reachable "vuln_app_type".
Proof.
  eapply (proj1 flowchart_shape "vuln_app_type"). reflexivity.
Defined.

(** ** More on the front matter parser *)

Section ParserFacts.

Import PyStr.
Local Arguments String.append !_ _ / : simpl nomatch.

Lemma lstrip_head s :
  lstrip s = "" \/ exists c r, lstrip s = String c r /\ isspace c = false.
Proof.
  induction s as [|c s IH]; simpl; [by left|].
  destruct (isspace c) eqn:Hc; [done|]. right. by exists c, s.
Qed.

Lemma rstrip_head c r :
  isspace c = false -> exists r', rstrip (String c r) = String c r'.
Proof.
  intros Hc. simpl. destruct (rstrip r); [|by eexists].
  rewrite Hc. by eexists.
Qed.

Lemma strip_idemp s : strip (strip s) = strip s.
Proof.
  unfold strip. destruct (lstrip_head s) as [-> | (c & r & -> & Hc)]; [done|].
  destruct (rstrip_head c r Hc) as [r' E]. rewrite E.
  change (lstrip (String c r')) with (if isspace c then lstrip r' else String c r').
  rewrite Hc, <- E. apply rstrip_idemp.
Qed.

Lemma startswith_short s sub rest :
  startswith s sub = false -> startswith (s +:+ rest) sub = true ->
  (String.length s < String.length sub)%nat.
Proof.
  revert s. induction sub as [|a sub IH]; intros s; simpl; [done|].
  destruct s as [|b s]; simpl; [lia|].
  case_decide; [|done]. intros H1 H2. specialize (IH _ H1 H2). lia.
Qed.

Lemma startswith_append s sub rest :
  startswith s sub = true -> startswith (s +:+ rest) sub = true.
Proof.
  intros H. apply startswith_app in H as [post ->]. apply startswith_app.
  exists (post +:+ rest). by rewrite str_append_assoc.
Qed.

Lemma find_aux_append sub s rest i j :
  find_aux sub s i = Some j -> find_aux sub (s +:+ rest) i = Some j.
Proof.
  revert i. induction s as [|c s IH]; intros i.
  - simpl. destruct (startswith "" sub) eqn:E; [|done].
    intros [= <-]. apply (startswith_append _ _ rest) in E. simpl in E.
    destruct rest; simpl; by rewrite E.
  - change (find_aux sub (String c s) i) with
      (if startswith (String c s) sub then Some i else find_aux sub s (S i)).
    change (find_aux sub (String c s +:+ rest) i) with
      (if startswith (String c s +:+ rest) sub then Some i
       else find_aux sub (s +:+ rest) (S i)).
    destruct (startswith (String c s) sub) eqn:E.
    + by rewrite (startswith_append _ _ rest E).
    + intros H. destruct (startswith (String c s +:+ rest) sub) eqn:E'; [|by apply IH].
      pose proof (startswith_short _ _ _ E E') as Hlen.
      apply find_aux_Some in H as (pre & post & Hs & _).
      apply (f_equal String.length) in Hs.
      rewrite !str_length_append in Hs. simpl in Hlen. lia.
Qed.

Lemma drop_append n s rest :
  (n <= String.length s)%nat -> drop n (s +:+ rest) = drop n s +:+ rest.
Proof.
  revert s. induction n as [|n IH]; intros s Hn; [done|].
  destruct s as [|c s]; simpl in *; [lia|]. apply IH. lia.
Qed.

Lemma take_append n s rest :
  (n <= String.length s)%nat -> take n (s +:+ rest) = take n s.
Proof.
  revert s. induction n as [|n IH]; intros s Hn.
  - by destruct s, rest.
  - destruct s as [|c s]; simpl in *; [lia|]. f_equal. apply IH. lia.
Qed.

Lemma frontmatter_append content rest :
  find content "---" 3 <> -1 -> frontmatter (content +:+ rest) = frontmatter content.
Proof.
  unfold frontmatter, find. intros Hfind.
  destruct (String.length content <? 3)%nat eqn:Hlen; [done|].
  apply Nat.ltb_ge in Hlen.
  assert (Hlen' : (String.length (content +:+ rest) <? 3)%nat = false).
  { apply Nat.ltb_ge. rewrite str_length_append. lia. }
  rewrite Hlen'.
  assert (Hsw : startswith (content +:+ rest) "---" = startswith content "---").
  { destruct content as [|a [|b [|c s]]]; simpl in Hlen; try lia.
    simpl. by repeat case_decide. }
  rewrite Hsw. destruct (startswith content "---"); [|done].
  unfold slice. change (Z.to_nat 3) with 3%nat. rewrite !drop_append by done.
  cbv [negb].
  destruct (find_aux "---" (drop 3 content) 3) as [j|] eqn:E; [|done].
  rewrite (find_aux_append _ _ rest _ _ E).
  destruct (Z.of_nat j =? -1) eqn:Hj; [done|]. do 2 f_equal.
  apply take_append.
  apply find_aux_Some in E as (pre & post & -> & ->).
  rewrite str_length_append. lia.
Qed.

End ParserFacts.

(** X16: what follows the closing delimiter is not read: when the text holds a
    closing delimiter, the parser returns the same for the text and for the
    text followed by anything. *)
Theorem parse_index_md_ignores_body (content rest : string) :
  PyStr.find content "---" 3 <> -1 ->
  parse_index_md (content +:+ rest) = parse_index_md content.
Proof.
  intros H. unfold parse_index_md. by rewrite frontmatter_append.
Qed.

Lemma parse_index_md_ignores_body_witness :
  parse_index_md (bad_level_document +:+ nl +:+ "---" +:+ nl +:+ "title: other") =
  parse_index_md bad_level_document.
Proof.
  apply (parse_index_md_ignores_body bad_level_document). vm_compute. discriminate.
Defined.

Lemma assign_well_formed metadata line :
  well_formed_metadata metadata -> well_formed_metadata (assign metadata line).
Proof.
  intros Hm. unfold assign. destruct (line_fields line) as [[k x]|] eqn:E; [|done].
  unfold line_fields in E.
  destruct (PyStr.contains ":" (PyStr.strip line)); [|done].
  destruct (PyStr.split ":" (Some 1%nat) (PyStr.strip line)) as [|a [|b [|? ?]]]; try done.
  injection E as <- <-.
  intros key v. destruct (decide (key = PyStr.strip a)) as [->|Hne].
  - rewrite lookup_insert_eq. intros [= <-]. split; [apply strip_idemp|].
    unfold field_value. repeat case_decide; try done.
    + destruct (truthy _); split; try done.
      apply Forall_fmap, Forall_forall. intros t _. apply strip_idemp.
    + repeat split; try done. apply strip_idemp.
  - rewrite lookup_insert_ne by done. apply Hm.
Qed.

Lemma fold_left_assign_well_formed lines metadata :
  well_formed_metadata metadata -> well_formed_metadata (fold_left assign lines metadata).
Proof.
  revert metadata. induction lines as [|l lines IH]; intros m Hm; [done|].
  simpl. by apply IH, assign_well_formed.
Qed.

Lemma parse_index_md_shape content :
  parse_index_md content = Ok None \/
  exists metadata t,
    parse_index_md content = Ok (Some metadata) /\
    well_formed_metadata metadata /\
    metadata !! "title" = Some (VStr t) /\ t <> "" /\ PyStr.strip t = t.
Proof.
  unfold parse_index_md. destruct (frontmatter content) as [fm|]; [|by left].
  rewrite for_each_parse_line. simpl.
  set (m := fold_left assign _ ∅).
  assert (Hm : well_formed_metadata m).
  { apply fold_left_assign_well_formed. intros k v. by rewrite lookup_empty. }
  destruct (m !! "title") as [v|] eqn:Ht; [|by left].
  destruct (truthy v) eqn:Hv; [|by left].
  right. destruct (Hm _ _ Ht) as [_ Hty].
  destruct v as [t| |]; [|done|by destruct Hty].
  exists m, t. split; [done|]. split; [done|]. split; [done|].
  split; [by intros ->|apply Hty].
Qed.

(** X17: the parser never raises, whatever the text, and a dict it returns is
    well formed and has a title that is a non-empty stripped text. *)
Theorem parse_index_md_well_typed (content : string) :
  parse_index_md content = Ok None \/
  exists metadata t,
    parse_index_md content = Ok (Some metadata) /\
    well_formed_metadata metadata /\
    metadata !! "title" = Some (VStr t) /\ t <> "" /\ PyStr.strip t = t.
Proof. apply parse_index_md_shape. Qed.

(** ** The conversation, one click after the other *)

Lemma get_cached_projects_result w :
  get_cached_projects w = (Ok (catalog_read w), w) \/
  get_cached_projects w = (Ok (catalog_read w), refreshed w).
Proof.
  unfold catalog_read.
  destruct (get_cached_projects_outcome w) as [H | (data & Hc & Hage & H)].
  - right. rewrite H. f_equal.
    destruct (cached w) as [data|] eqn:Hc; [|done].
    destruct (Z.ltb_spec (clock w - timestamp data) CACHE_TTL_SECONDS) as [Hlt|Hge]; [|done].
    rewrite (get_cached_projects_hit _ _ Hc Hlt) in H. injection H as H1 H2.
    exfalso. apply (f_equal fetch_count) in H2. simpl in H2. lia.
  - left. rewrite H, Hc. by rewrite (proj2 (Z.ltb_lt _ _) Hage).
Qed.

Lemma option_action_id_flowchart question_key option :
  PyStr.startswith (option_action_id question_key option) "flowchart_" = true.
Proof. apply startswith_app. by eexists. Qed.

(** The buttons of a question are the ones the handler takes: each carries
    an identifier of the flowchart family and the value written for its
    option, one button per option and in the order of the options. *)
Lemma send_flowchart_question_run user_id question_key question_data w :
  dict_get FLOWCHART_QUESTIONS question_key = Some question_data ->
  send_flowchart_question user_id question_key w =
  (Ok tt,
   MkWorld (SLACK_BOT_KV w) (clock w)
     (outbox w ++
        [Dm user_id
           [Section_ ("*" +:+ q_question question_data +:+ "*");
            Actions (map (fun option =>
                            Button (o_text option) None
                                   (option_action_id question_key option)
                                   (Some (option_value question_key option)) None)
                         (q_options question_data))]
           (q_question question_data)])
     (upstream w) (fetch_seconds w) (fetch_count w)).
Proof. intros H. unfold send_flowchart_question. by rewrite H. Qed.

(** X18: a click on the button of an option that does not end the flowchart:
    the answer is stored under the node's key, the other answers are kept,
    and the question of the node the option leads to, which exists, is
    sent to the user; no search is counted and the catalog is not
    fetched. *)
Theorem answer_leads_to_next_question (json_loads : string -> option json)
    (user_id key : string) (question_data : flow_question) (option : flow_option) (w : World) :
  dict_get FLOWCHART_QUESTIONS key = Some question_data ->
  option ∈ q_options question_data ->
  o_next option <> "end" ->
  json_loads (option_value key option) = Some (button_payload key option) ->
  let r := handle_flowchart_action json_loads user_id
             (option_action_id key option) (option_value key option) w in
  r.1 = Ok tt /\
  stored_selections user_id r.2 =
    Some (<[key := JStr (o_value option)]> (current_selections user_id w)) /\
  (exists next_question blocks,
     dict_get FLOWCHART_QUESTIONS (o_next option) = Some next_question /\
     outbox r.2 = outbox w ++ [Dm user_id blocks (q_question next_question)]) /\
  search_stats (SLACK_BOT_KV r.2) = search_stats (SLACK_BOT_KV w) /\
  fetch_count r.2 = fetch_count w.
Proof.
  intros Hq Ho Hend Hloads.
  destruct (flowchart_options_closed _ _ _ Hq Ho) as [|[next_question Hnext]]; [done|].
  intros r. subst r.
  erewrite handle_flowchart_action_run;
    [|apply option_action_id_flowchart|exact Hloads|reflexivity].
  rewrite decide_False by done. simpl.
  unfold try_catch, mbind, M_bind. rewrite store_user_selection_run. simpl.
  rewrite (send_flowchart_question_run _ _ _ _ Hnext). simpl.
  split; [done|]. split.
  - unfold stored_selections. simpl. by rewrite lookup_insert_eq.
  - split; [|done]. by eexists _, _.
Qed.

Lemma answer_leads_to_next_question_witness :
  stored_selections "U1"
    (handle_flowchart_action (loads_table [(json_dumps back_payload, back_payload)]) "U1"
       (option_action_id "tool_type" (FlowOption "🔙 Go Back" "back" "start"))
       (option_value "tool_type" (FlowOption "🔙 Go Back" "back" "start"))
       (empty_world 0)).2 =
  Some (<["tool_type" := JStr "back"]> (current_selections "U1" (empty_world 0))).
Proof.
  refine (proj1 (proj2 (answer_leads_to_next_question
    (loads_table [(json_dumps back_payload, back_payload)])
    "U1" "tool_type"
    (default (FlowQuestion "" []) (dict_get FLOWCHART_QUESTIONS "tool_type"))
    (FlowOption "🔙 Go Back" "back" "start")
    (empty_world 0) _ _ _ _))).
  - reflexivity.
  - do 4 right. left.
  - discriminate.
  - vm_compute. reflexivity.
Defined.

Lemma show_matching_projects_run user_id category w :
  exists w2,
    (w2 = w \/ w2 = refreshed w) /\
    show_matching_projects user_id (JStr category) w =
    record_search user_id (JStr category)
      (length (filter_projects (catalog_read w) category))
      (send_dm user_id
         (match filter_projects (catalog_read w) category with
          | [] => no_projects_blocks
          | _ => matching_blocks (filter_projects (catalog_read w) category)
          end)
         "Project search results" w2).2.
Proof.
  unfold show_matching_projects, mbind, M_bind.
  destruct (get_cached_projects_result w) as [-> | ->]; eexists; (split; [|reflexivity]); auto.
Qed.

Lemma handle_terminal_run json_loads user_id key option w :
  o_next option = "end" ->
  json_loads (option_value key option) = Some (button_payload key option) ->
  handle_flowchart_action json_loads user_id
    (option_action_id key option) (option_value key option) w =
  show_matching_projects user_id (JStr (o_value option))
    (recorded user_id key (JStr (o_value option)) w).
Proof.
  intros Hend Hloads.
  erewrite handle_flowchart_action_run;
    [|apply option_action_id_flowchart|exact Hloads|reflexivity].
  rewrite decide_True by done.
  unfold try_catch, mbind, M_bind. rewrite store_user_selection_run.
  change (dumped_key _) with (Ok key : result string). cbv beta iota.
  change (default JNull _) with (JStr (o_value option)).
  set (w1 := recorded _ _ _ _).
  destruct (show_matching_projects_run user_id (o_value option) w1) as (w2 & _ & ->).
  by rewrite record_search_run.
Qed.

(** X19: a click on the button of an option that ends the flowchart: the answer
    is stored, the catalog is read (fetched at most once), the user gets
    one message, made from the projects that pass the filter of the chosen
    tag, and the search is counted once, for that tag and with the number
    of all the matches. *)
Theorem answer_ends_with_search (json_loads : string -> option json)
    (user_id key : string) (question_data : flow_question) (option : flow_option) (w : World) :
  dict_get FLOWCHART_QUESTIONS key = Some question_data ->
  option ∈ q_options question_data ->
  o_next option = "end" ->
  json_loads (option_value key option) = Some (button_payload key option) ->
  stats_permanent w ->
  let r := handle_flowchart_action json_loads user_id
             (option_action_id key option) (option_value key option) w in
  let matching := filter_projects (catalog_read w) (o_value option) in
  r.1 = Ok tt /\
  stored_selections user_id r.2 =
    Some (<[key := JStr (o_value option)]> (current_selections user_id w)) /\
  outbox r.2 = outbox w ++
    [Dm user_id
        (match matching with [] => no_projects_blocks | _ => matching_blocks matching end)
        "Project search results"] /\
  searches r.2 = searches w + 1 /\
  searches_of (o_value option) r.2 = searches_of (o_value option) w + 1 /\
  (fetch_count r.2 <= S (fetch_count w))%nat.
Proof.
  intros Hq Ho Hend Hloads Hperm r matching. subst r.
  rewrite handle_terminal_run by done.
  set (w1 := recorded user_id key (JStr (o_value option)) w).
  assert (Hcat : catalog_read w1 = catalog_read w) by done.
  destruct (show_matching_projects_run user_id (o_value option) w1) as (w2 & Hw2 & ->).
  rewrite Hcat. fold matching. rewrite record_search_run.
  assert (H2 : conversations (SLACK_BOT_KV w2) = conversations (SLACK_BOT_KV w1) /\
               search_stats (SLACK_BOT_KV w2) = search_stats (SLACK_BOT_KV w) /\
               outbox w2 = outbox w /\
               (fetch_count w2 <= S (fetch_count w))%nat).
  { destruct Hw2 as [-> | ->]; simpl; repeat split; try done. lia. }
  destruct H2 as (Hconv & Hstats & Hout & Hfetch).
  assert (Hcur : forall now, live now (search_stats (SLACK_BOT_KV w2)) = current_stats w).
  { intros now. rewrite Hstats. unfold current_stats, stats_permanent in *.
    destruct (search_stats (SLACK_BOT_KV w)) as [[s e]|]; [|done].
    simpl in Hperm. by rewrite Hperm. }
  cbn [fst snd]. split; [done|]. split; [|split; [|split; [|split]]].
  - unfold stored_selections. cbn. rewrite Hconv. unfold w1. cbn.
    by rewrite lookup_insert_eq.
  - cbn. by rewrite Hout.
  - unfold searches at 1. unfold current_stats at 1. cbn.
    unfold searches, current_stats. cbn. by rewrite Hcur.
  - unfold searches_of at 1. unfold current_stats at 1. cbn.
    rewrite lookup_insert_eq. unfold searches_of, current_stats. cbn. by rewrite Hcur.
  - done.
Qed.


Lemma answer_ends_with_search_witness :
  searches
    (handle_flowchart_action
       (loads_table [(json_dumps code_analysis_payload, code_analysis_payload)]) "U1"
       (option_action_id "tool_type" (FlowOption "🔍 Code Analysis/SAST" "code_analysis" "end"))
       (option_value "tool_type" (FlowOption "🔍 Code Analysis/SAST" "code_analysis" "end"))
       (cached_world 200)).2 =
  searches (cached_world 200) + 1.
Proof.
  refine (proj1 (proj2 (proj2 (proj2 (answer_ends_with_search
    (loads_table [(json_dumps code_analysis_payload, code_analysis_payload)])
    "U1" "tool_type"
    (default (FlowQuestion "" []) (dict_get FLOWCHART_QUESTIONS "tool_type"))
    (FlowOption "🔍 Code Analysis/SAST" "code_analysis" "end")
    (cached_world 200) _ _ _ _ _))))).
  - reflexivity.
  - left.
  - reflexivity.
  - vm_compute. reflexivity.
  - exact I.
Defined.

(** X20: a button value that cannot be used. A value on which [json.loads]
    raises [JSONDecodeError] sets the conversation back to the start: the
    start question is sent and nothing is stored. A JSON text that is not
    an object is not caught: the handler raises [AttributeError] and has
    changed nothing. *)
Theorem handle_flowchart_action_bad_value (json_loads : string -> option json)
    (user_id action_id value : string) (w : World) :
  PyStr.startswith action_id "flowchart_" = true ->
  (json_loads value = None ->
   handle_flowchart_action json_loads user_id action_id value w =
     start_conversation user_id w /\
   SLACK_BOT_KV (handle_flowchart_action json_loads user_id action_id value w).2 =
     SLACK_BOT_KV w /\
   exists blocks,
     outbox (handle_flowchart_action json_loads user_id action_id value w).2 =
     outbox w ++ [Dm user_id blocks "What type of OWASP resource are you looking for?"]) /\
  (forall data, json_loads value = Some data ->
   (forall fields, data <> JObj fields) ->
   handle_flowchart_action json_loads user_id action_id value w = (Raise AttributeError, w)).
Proof.
  intros Hid. destruct (flowchart_action_id _ Hid) as (H1 & H2 & H3).
  unfold handle_flowchart_action. rewrite !decide_False by done. rewrite Hid. split.
  - intros ->. unfold try_catch, mbind, M_bind, lift. simpl.
    split; [done|]. split; [done|]. by eexists.
  - intros data -> Hobj. unfold try_catch, mbind, M_bind, lift. simpl.
    destruct data; try done. by destruct (Hobj fields).
Qed.

Lemma handle_flowchart_action_bad_value_witness :
  handle_flowchart_action stray_loads "U1" "flowchart_start_tool" "{" (empty_world 0) =
  start_conversation "U1" (empty_world 0).
Proof.
  refine (proj1 (proj1 (handle_flowchart_action_bad_value stray_loads "U1"
            "flowchart_start_tool" "{" (empty_world 0) _) _)).
  - reflexivity.
  - vm_compute. reflexivity.
Defined.

(** ** Request verification *)





(** ** The messages of the worker *)

Section Emits.

Context (Q : dm -> Prop).

Lemma emits_silent {A} (m : M A) : (forall w, outbox (m w).2 = outbox w) -> emits Q m.
Proof. intros H w. exists []. by rewrite H, app_nil_r. Qed.

Lemma emits_bind {A B} (m : M A) (k : A -> M B) :
  emits Q m -> (forall a, emits Q (k a)) -> emits Q (m ≫= k).
Proof.
  intros Hm Hk w. unfold mbind, M_bind.
  destruct (Hm w) as (l1 & E1 & H1). destruct (m w) as [[a|e] w']; simpl in *.
  - destruct (Hk a w') as (l2 & E2 & H2). exists (l1 ++ l2).
    rewrite E2, E1, app_assoc. split; [done|]. by apply Forall_app.
  - by exists l1.
Qed.

Lemma emits_try_catch {A} (m h : M A) (e : exn) :
  emits Q m -> emits Q h -> emits Q (try_catch m e h).
Proof.
  intros Hm Hh w. unfold try_catch.
  destruct (Hm w) as (l1 & E1 & H1). destruct (m w) as [[a|e'] w']; simpl in *.
  - by exists l1.
  - case_decide; [|by exists l1].
    destruct (Hh w') as (l2 & E2 & H2). exists (l1 ++ l2).
    rewrite E2, E1, app_assoc. split; [done|]. by apply Forall_app.
Qed.

Lemma emits_send_dm user_id blocks text :
  Q (Dm user_id blocks text) -> emits Q (send_dm user_id blocks text).
Proof. intros H w. exists [Dm user_id blocks text]. split; [done|]. by constructor. Qed.

End Emits.

Ltac emits_steps :=
  repeat first
    [ apply emits_bind; [|intros ?]
    | apply emits_try_catch
    | apply emits_send_dm
    | by apply emits_silent
    | progress case_decide
    | progress case_match ].

Lemma emits_store_user_selection Q user_id question answer :
  emits Q (store_user_selection user_id question answer).
Proof.
  apply emits_silent. intros w. rewrite store_user_selection_run.
  by destruct (dumped_key question).
Qed.

Lemma emits_get_cached_projects Q : emits Q get_cached_projects.
Proof.
  apply emits_silent. intros w.
  by destruct (get_cached_projects_result w) as [-> | ->].
Qed.

Lemma emits_record_search Q user_id category n : emits Q (record_search user_id category n).
Proof.
  apply emits_silent. intros w. unfold record_search. run_monad.
  destruct (lookup_json _ category); [|done]. simpl.
  by destruct (dumped_key category).
Qed.

Ltac live_blocks :=
  repeat match goal with
         | |- Forall _ (_ :: _) => apply Forall_cons; split
         | |- Forall _ [] => apply Forall_nil
         | |- Forall _ (_ ++ _) => apply Forall_app; split
         | |- live_block _ => progress simpl
         | |- live_button _ =>
             first [ left; by eexists | right; unfold handled; simpl; tauto ]
         | |- True => exact I
         end.

Lemma live_flowchart_buttons question_key (options : list flow_option) :
  Forall live_button
    (map (fun option =>
            Button (o_text option) None
                   ("flowchart_" +:+ question_key +:+ "_" +:+ o_value option)
                   (Some (json_dumps (button_payload question_key option))) None)
         options).
Proof.
  apply Forall_map, Forall_forall. intros o _. right. do 3 right.
  apply (option_action_id_flowchart question_key o).
Qed.

Lemma emits_send_flowchart_question user_id question_key :
  emits (message_for user_id) (send_flowchart_question user_id question_key).
Proof.
  unfold send_flowchart_question. emits_steps.
  split; [done|]. simpl. live_blocks. apply live_flowchart_buttons.
Qed.

Lemma emits_show_matching_projects user_id category :
  emits (message_for user_id) (show_matching_projects user_id category).
Proof.
  unfold show_matching_projects.
  apply emits_bind; [apply emits_get_cached_projects|]. intros projects.
  apply emits_bind; [by apply emits_silent|]. intros matching.
  apply emits_bind; [|intros; apply emits_record_search].
  apply emits_send_dm. split; [done|]. destruct matching as [|p ps].
  - unfold no_projects_blocks. simpl. live_blocks.
  - unfold matching_blocks. simpl dm_blocks. live_blocks.
    apply Forall_map, Forall_forall. by intros.
Qed.

(** X22: whatever the action and however the handler ends, it only adds calls of
    [send_dm] to those made before, every one of them for the user who
    acted, and every button it sends does something: it opens a link or
    carries an identifier the handler acts on. The same holds of the
    welcome message. *)
Theorem handle_flowchart_action_messages (json_loads : string -> option json)
    (user_id action_id value : string) :
  emits (message_for user_id) (handle_flowchart_action json_loads user_id action_id value) /\
  emits (message_for user_id) (send_welcome_message user_id).
Proof.
  assert (Hstart : emits (message_for user_id) (start_conversation user_id))
    by apply emits_send_flowchart_question.
  split.
  - unfold handle_flowchart_action.
    repeat case_decide; try done.
    + apply emits_send_dm. split; [done|]. simpl. live_blocks.
    + destruct (PyStr.startswith action_id "flowchart_"); [|by apply emits_silent].
      apply emits_try_catch; [|done].
      repeat (apply emits_bind; [by apply emits_silent|]; intros ?).
      apply emits_bind; [apply emits_store_user_selection|]. intros _.
      repeat case_match; try by apply emits_silent.
      * apply emits_show_matching_projects.
      * apply emits_send_flowchart_question.
  - apply emits_send_dm. split; [done|]. simpl. live_blocks.
Qed.

(** ** The catalog fetcher, inside *)

Section FetcherFacts.

Import Fetcher.
Local Arguments String.append !_ _ / : simpl nomatch.

Variable http : string -> option response.
Variable json_loads : string -> option json.


(** What the inner block appends. *)
Lemma fetch_index_appends org repo_name repo d :
  fetch_index http org repo_name repo = Some (Some d) ->
  exists metadata t,
    d = describe org repo_name repo metadata /\
    well_formed_metadata metadata /\
    metadata !! "title" = Some (VStr t) /\ t <> "" /\ PyStr.strip t = t.
Proof.
  unfold fetch_index. destruct (http (index_url org repo_name "main")) as [r|]; [|done].
  simpl.
  destruct (if negb (status r =? 200) then http (index_url org repo_name "master") else Some r)
    as [r'|]; [|done].
  simpl. destruct (status r' =? 200); [|done].
  destruct (parse_index_md_shape (text r')) as [-> | (m & t & -> & Hm & Ht & Hne & Hs)]; [done|].
  case_decide; [done|]. intros [= <-]. by exists m, t.
Qed.

(** A step of the loop keeps what was appended and appends at most one
    dict, made by the inner block for a listed name. *)
Lemma repo_step_appends org projects repo projects' :
  repo_step http org projects repo = Some projects' ->
  projects' = projects \/
  exists fields repo_name d,
    repo = JObj fields /\ listed_name repo = Some repo_name /\
    PyStr.startswith repo_name "www-project-" = true /\
    fetch_index http org repo_name fields = Some (Some d) /\
    projects' = projects ++ [d].
Proof.
  unfold repo_step, listed_name. destruct repo as [|b|z|s|l|fields]; try done.
  destruct (dict_get fields "name") as [[|b|z|repo_name|l|f]|] eqn:Hname;
    cbn [default from_option id]; try done.
  - destruct (PyStr.startswith repo_name "www-project-") eqn:Hpre; cbn [negb].
    + destruct (fetch_index http org repo_name fields) as [[d|]|] eqn:Hd.
      * intros [= <-]. right. by exists fields, repo_name, d.
      * intros [= <-]. by left.
      * intros [= <-]. by left.
    + intros [= <-]. by left.
  - intros [= <-]. by left.
Qed.

Lemma repo_step_abort org projects projects' repo :
  repo_step http org projects repo = None -> repo_step http org projects' repo = None.
Proof.
  unfold repo_step. destruct repo; try done.
  destruct (default (JStr "") (dict_get _ "name")); try done.
  destruct (negb _); [done|]. by destruct (fetch_index _ _ _ _) as [[?|]|].
Qed.

Lemma scan_repos_abort org projects repos1 bad repos2 :
  repo_step http org [] bad = None ->
  scan_repos http org projects (repos1 ++ bad :: repos2) = scan_repos http org projects repos1.
Proof.
  intros Hbad. revert projects. induction repos1 as [|r rs IH]; intros ps; simpl.
  - by rewrite (repo_step_abort _ _ ps _ Hbad).
  - destruct (repo_step http org ps r); [apply IH | done].
Qed.

Lemma scan_repos_skip org projects repos1 repo repos2 :
  (forall ps, repo_step http org ps repo = Some ps) ->
  scan_repos http org projects (repos1 ++ repo :: repos2) =
  scan_repos http org projects (repos1 ++ repos2).
Proof.
  intros Hskip. revert projects. induction repos1 as [|r rs IH]; intros ps; simpl.
  - by rewrite Hskip.
  - destruct (repo_step http org ps r); [apply IH | done].
Qed.



Lemma fetch_owasp_projects_listing repos :
  listing http json_loads repos ->
  fetch_owasp_projects http json_loads = scan_repos http "OWASP" [] repos.
Proof.
  intros (r & Hr & Hs & Hl).
  unfold fetch_owasp_projects, GITHUB_ORGS, org_step. simpl.
  by rewrite Hr, Hs, Hl.
Qed.

End FetcherFacts.

Lemma describe_lookup org repo_name repo metadata :
  let d := Fetcher.describe org repo_name repo metadata in
  d !! "repo" = Some (Fetcher.Parsed (VStr repo_name)) /\
  d !! "url" = Some (Fetcher.Parsed
    (VStr ("https://owasp.org/" +:+ str_replace "www-" "" repo_name +:+ "/"))) /\
  d !! "github_url" = Some (Fetcher.Parsed
    (VStr ("https://github.com/" +:+ org +:+ "/" +:+ repo_name))) /\
  d !! "stars" = Some (Fetcher.Listed (default (JInt 0) (dict_get repo "stargazers_count"))) /\
  d !! "title" = Fetcher.Parsed <$> metadata !! "title".
Proof.
  unfold Fetcher.describe. cbv zeta.
  split; [|split; [|split; [|split]]].
  - rewrite !lookup_insert_ne by done. by rewrite lookup_insert_eq.
  - rewrite !lookup_insert_ne by done. by rewrite lookup_insert_eq.
  - rewrite !lookup_insert_ne by done. by rewrite lookup_insert_eq.
  - by rewrite lookup_insert_eq.
  - rewrite !lookup_insert_ne by done. by rewrite lookup_fmap.
Qed.



Lemma project_repo_describe org repo_name repo metadata :
  project_repo (Fetcher.describe org repo_name repo metadata) = Some repo_name.
Proof.
  unfold project_repo.
  by rewrite (proj1 (describe_lookup org repo_name repo metadata)).
Qed.

Lemma omap_cons_case {A B} (f : A -> option B) x l :
  omap f (x :: l) = match f x with Some y => y :: omap f l | None => omap f l end.
Proof. reflexivity. Qed.

Lemma scan_repos_names http org projects repos :
  exists names,
    project_repo <$> Fetcher.scan_repos http org projects repos =
      (project_repo <$> projects) ++ (Some <$> names) /\
    names `sublist_of` omap listed_name repos.
Proof.
  revert projects. induction repos as [|r rs IH]; intros ps.
  - exists []. simpl. by rewrite app_nil_r.
  - rewrite omap_cons_case.
    change (Fetcher.scan_repos http org ps (r :: rs)) with
      (match Fetcher.repo_step http org ps r with
       | Some ps' => Fetcher.scan_repos http org ps' rs
       | None => ps
       end).
    destruct (Fetcher.repo_step http org ps r) as [ps'|] eqn:Hstep.
    + destruct (IH ps') as (names & E & Hsub).
      apply repo_step_appends in Hstep as [-> | (f & n & d & Hr & Hn & _ & Hd & ->)].
      * exists names. split; [done|].
        destruct (listed_name r); [by apply sublist_cons | done].
      * apply fetch_index_appends in Hd as (m & t & -> & _).
        exists (n :: names). rewrite E, fmap_app, <- app_assoc. simpl.
        rewrite project_repo_describe. split; [done|].
        rewrite Hn. by apply sublist_skip.
    + exists []. simpl. rewrite app_nil_r. split; [done|]. apply sublist_nil_l.
Qed.

(** X24: the scan follows the listing: it returns at most one project per
    listed repository, in the order of the listing, each under the name of
    the repository it came from; and it returns no project when the
    listing cannot be fetched, is refused or cannot be decoded. *)
Theorem fetch_follows_listing (http : string -> option Fetcher.response)
    (json_loads : string -> option json) :
  (forall repos, listing http json_loads repos ->
     exists names,
       project_repo <$> Fetcher.fetch_owasp_projects http json_loads = Some <$> names /\
       names `sublist_of` omap listed_name repos) /\
  (http (Fetcher.repos_url "OWASP") = None ->
   Fetcher.fetch_owasp_projects http json_loads = []) /\
  (forall repos_response,
     http (Fetcher.repos_url "OWASP") = Some repos_response ->
     Fetcher.status repos_response <> 200 \/
     json_loads (Fetcher.text repos_response) = None ->
     Fetcher.fetch_owasp_projects http json_loads = []).
Proof.
  split; [|split].
  - intros repos Hl. rewrite (fetch_owasp_projects_listing _ _ _ Hl).
    destruct (scan_repos_names http "OWASP" [] repos) as (names & E & Hsub).
    by exists names.
  - intros H. unfold Fetcher.fetch_owasp_projects, Fetcher.org_step. simpl. by rewrite H.
  - intros r Hr H. unfold Fetcher.fetch_owasp_projects, Fetcher.org_step. simpl.
    rewrite Hr. destruct H as [H | H].
    + by rewrite (proj2 (Z.eqb_neq _ _) H).
    + rewrite H. simpl. by destruct (negb _).
Qed.

Lemma fetch_follows_listing_witness :
  exists names,
    project_repo <$> Fetcher.fetch_owasp_projects sample_http sample_loads = Some <$> names /\
    names `sublist_of` omap listed_name sample_repos.
Proof.
  apply (proj1 (fetch_follows_listing sample_http sample_loads) sample_repos).
  exists (Fetcher.Response 200 "listing"). split; [reflexivity|]. split; reflexivity.
Defined.

(** X25: one bad entry of the listing. An entry that is no object, or whose
    name is no text, ends the scan without an error: the projects
    collected before it are returned and the entries after it are not
    visited. An entry that can be read but gives no project (another kind
    of repository, a page that cannot be fetched or has no front matter
    with a title) is passed over: the result is that of the listing
    without it. *)
Theorem fetch_failure_isolation (http : string -> option Fetcher.response)
    (json_loads : string -> option json) (repos1 repos2 : list json) (repo : json) :
  listing http json_loads (repos1 ++ repo :: repos2) ->
  ((forall fields, repo <> JObj fields) \/
   (exists fields v, repo = JObj fields /\ dict_get fields "name" = Some v /\
                     forall repo_name, v <> JStr repo_name) ->
   Fetcher.fetch_owasp_projects http json_loads =
   Fetcher.fetch_owasp_projects http (fun _ => Some (JArr repos1))) /\
  ((exists fields repo_name,
      repo = JObj fields /\
      default (JStr "") (dict_get fields "name") = JStr repo_name /\
      (PyStr.startswith repo_name "www-project-" = false \/
       forall d, Fetcher.fetch_index http "OWASP" repo_name fields <> Some (Some d))) ->
   Fetcher.fetch_owasp_projects http json_loads =
   Fetcher.fetch_owasp_projects http (fun _ => Some (JArr (repos1 ++ repos2)))).
Proof.
  intros Hl.
  assert (Hcut : forall repos,
            Fetcher.fetch_owasp_projects http (fun _ => Some (JArr repos)) =
            Fetcher.scan_repos http "OWASP" [] repos).
  { intros repos. apply fetch_owasp_projects_listing.
    destruct Hl as (r & Hr & Hs & _). by exists r. }
  rewrite (fetch_owasp_projects_listing _ _ _ Hl), !Hcut. split.
  - intros Hbad. apply scan_repos_abort.
    destruct Hbad as [Hno | (fields & v & -> & Hname & Hv)].
    + destruct repo; try done. by destruct (Hno fields).
    + unfold Fetcher.repo_step. rewrite Hname. cbn [default from_option id].
      destruct v; try done. by destruct (Hv s).
  - intros (fields & repo_name & -> & Hname & Hskip).
    apply scan_repos_skip. intros ps.
    unfold Fetcher.repo_step. rewrite Hname.
    destruct Hskip as [-> | Hnone]; [done|].
    destruct (negb _); [done|].
    destruct (Fetcher.fetch_index http "OWASP" repo_name fields) as [[d|]|] eqn:E; try done.
    by destruct (Hnone d).
Qed.

Lemma fetch_failure_isolation_witness :
  Fetcher.fetch_owasp_projects sample_http sample_loads =
  Fetcher.fetch_owasp_projects sample_http
    (fun _ => Some (JArr ([JObj [("name", JStr "www-project-juice-shop");
                                 ("stargazers_count", JInt 7)]] ++ []))).
Proof.
  refine (proj2 (fetch_failure_isolation sample_http sample_loads
            [JObj [("name", JStr "www-project-juice-shop"); ("stargazers_count", JInt 7)]]
            [] (JObj [("name", JStr "www-project-empty")]) _) _).
  - exists (Fetcher.Response 200 "listing"). split; [reflexivity|]. split; reflexivity.
  - exists [("name", JStr "www-project-empty")], "www-project-empty".
    split; [reflexivity|]. split; [reflexivity|]. right. intros d. vm_compute. discriminate.
Defined.

(** ** Lines of the front matter *)

Section LineFacts.

Import PyStr.
Local Arguments String.append !_ _ / : simpl nomatch.

Lemma rstrip_cons c s : isspace c = false -> rstrip (String c s) = String c (rstrip s).
Proof. intros Hc. simpl. destruct (rstrip s); [by rewrite Hc | done]. Qed.

Lemma lstrip_rstrip s : lstrip (rstrip s) = rstrip (lstrip s).
Proof.
  induction s as [|c s IH]; [done|].
  destruct (isspace c) eqn:Hc.
  - change (lstrip (String c s)) with (if isspace c then lstrip s else String c s).
    rewrite Hc, <- IH. simpl. destruct (rstrip s) as [|d r]; [by rewrite Hc|].
    change (lstrip (String c (String d r))) with
      (if isspace c then lstrip (String d r) else String c (String d r)).
    by rewrite Hc.
  - change (lstrip (String c s)) with (if isspace c then lstrip s else String c s).
    rewrite Hc, rstrip_cons by done.
    change (lstrip (String c (rstrip s))) with
      (if isspace c then lstrip (rstrip s) else String c (rstrip s)).
    by rewrite Hc.
Qed.

Lemma strip_lstrip s : strip (lstrip s) = strip s.
Proof.
  unfold strip. f_equal. destruct (lstrip_head s) as [-> | (c & r & -> & Hc)]; [done|].
  change (lstrip (String c r)) with (if isspace c then lstrip r else String c r).
  by rewrite Hc.
Qed.

Lemma strip_rstrip s : strip (rstrip s) = strip s.
Proof. unfold strip. by rewrite lstrip_rstrip, rstrip_idemp. Qed.

Lemma lstrip_colon k v : lstrip (k +:+ ":" +:+ v) = lstrip k +:+ ":" +:+ v.
Proof.
  induction k as [|c k IH]; [done|].
  change (String c k +:+ ":" +:+ v) with (String c (k +:+ ":" +:+ v)).
  change (lstrip (String c (k +:+ ":" +:+ v))) with
    (if isspace c then lstrip (k +:+ ":" +:+ v) else String c (k +:+ ":" +:+ v)).
  change (lstrip (String c k)) with (if isspace c then lstrip k else String c k).
  by destruct (isspace c).
Qed.

Lemma strip_colon k v : strip (k +:+ ":" +:+ v) = lstrip k +:+ String ":" (rstrip v).
Proof.
  unfold strip. rewrite lstrip_colon.
  change (":" +:+ v) with (String ":" v).
  rewrite rstrip_app; by rewrite rstrip_cons.
Qed.

Lemma contains_lstrip sub s : contains sub s = false -> contains sub (lstrip s) = false.
Proof.
  induction s as [|c s IH]; [done|].
  change (lstrip (String c s)) with (if isspace c then lstrip s else String c s).
  destruct (isspace c); [|done]. simpl. intros H.
  apply orb_false_iff in H as [_ H]. by apply IH.
Qed.

Lemma contains_rstrip sub s : contains sub (rstrip s) = true -> contains sub s = true.
Proof.
  rewrite !contains_occurs. intros (pre & post & H).
  assert (Hs : exists tail, s = rstrip s +:+ tail).
  { clear. induction s as [|c s [tail IH]]; [by exists ""|].
    simpl. destruct (rstrip s) as [|d r] eqn:E.
    - destruct (isspace c); [by exists (String c s)|]. by exists s.
    - exists tail. simpl. by rewrite IH at 1. }
  destruct Hs as [tail Hs]. exists pre, (post +:+ tail).
  rewrite Hs at 1. rewrite H. by rewrite !str_append_assoc.
Qed.

Lemma line_fields_colon k v :
  contains ":" k = false -> line_fields (k +:+ ":" +:+ v) = Some (strip k, strip v).
Proof.
  intros Hk. unfold line_fields. rewrite strip_colon.
  assert (Hc : contains ":" (lstrip k +:+ String ":" (rstrip v)) = true).
  { apply contains_occurs. by exists (lstrip k), (rstrip v). }
  rewrite Hc, split_once_app by by apply contains_lstrip.
  by rewrite strip_lstrip, strip_rstrip.
Qed.

Lemma line_fields_no_colon line : contains ":" line = false -> line_fields line = None.
Proof.
  intros H. unfold line_fields, strip.
  destruct (contains ":" (rstrip (lstrip line))) eqn:E; [|done].
  apply contains_rstrip in E. by rewrite contains_lstrip in E.
Qed.

End LineFacts.

(** X26: a line of the front matter is cut at its first colon: what stands
    before it, stripped, is the key, and all that follows it, stripped and
    with its further colons, is the value, stored as the key asks; for a
    key other than "tags" and "level" it is stored as it is. A line without
    a colon changes nothing. *)
Theorem parse_line_first_colon (metadata : gmap string pyvalue) (key value : string) :
  PyStr.contains ":" key = false ->
  parse_line metadata (key +:+ ":" +:+ value) =
    Ok (<[PyStr.strip key := field_value (PyStr.strip key) (PyStr.strip value)]> metadata) /\
  (PyStr.strip key <> "tags" -> PyStr.strip key <> "level" ->
   parse_line metadata (key +:+ ":" +:+ value) =
     Ok (<[PyStr.strip key := VStr (PyStr.strip value)]> metadata)) /\
  (forall line, PyStr.contains ":" line = false -> parse_line metadata line = Ok metadata).
Proof.
  intros Hk. rewrite !parse_line_assign. unfold assign.
  rewrite line_fields_colon by done.
  split; [done|]. split.
  - intros H1 H2. unfold field_value. by rewrite !decide_False by done.
  - intros line Hline. rewrite parse_line_assign. unfold assign.
    by rewrite line_fields_no_colon.
Qed.

Lemma parse_line_first_colon_witness :
  parse_line ∅ ("  url : https://owasp.org  ") =
  Ok (<["url" := VStr "https://owasp.org"]> ∅).
Proof.
  refine (proj1 (proj2 (parse_line_first_colon ∅ "  url " " https://owasp.org  " _)) _ _).
  - reflexivity.
  - vm_compute. discriminate.
  - vm_compute. discriminate.
Defined.

(** ** The buttons of a question *)


